(** * Brain-to-text data fetch and pipeline runner: a shallow embedding

    This development embeds the two orchestration scripts of the
    repository,

      - [download_data.py]         (module [DownloadData]), and
      - [run_complete_pipeline.py] (module [CompletePipeline]),

    as state-passing programs over an explicit world (the part of the
    filesystem the scripts look at, plus the history of observable events),
    and proves the behavioural contract of the fetch-and-verify procedure
    and of the runner's exit status.

    Everything outside the scripts (the Kaggle client, [zipfile], the child
    processes) is an oracle: a function from the current world to an
    outcome.  The theorems quantify over the oracles, so they hold for all
    behaviours of the outside.

    Scope of the model.  Raised values are instances of [Exception], the
    class the handlers of [download_from_kaggle] catch; signals delivered
    as [BaseException] ([KeyboardInterrupt], [SystemExit]) are not
    modelled.  The probe of the credential file, which runs before the
    outer [try], may raise; the other filesystem probes and [print] do
    not.  Manifest names are plain file names, so [DATA_DIR / f] is the
    entry [f] of the data directory.  A directory entry is a regular file
    or something else that exists (a directory). *)

From Stdlib Require Import ZArith NArith Ascii String List Lia.
From stdpp Require Import base tactics option list sorting strings pretty gmap fin_maps.

Local Open Scope string_scope.
Local Open Scope list_scope.

(** ** Python values used by the scripts *)

Module Py.

(** [sub in s] on Python strings.  Names and messages are byte strings
    (UTF-8), on which the substring test and the code-point order of
    [sorted] coincide with their bytewise versions. *)
Fixpoint contains (sub s : string) : bool :=
  String.prefix sub s ||
  match s with
  | EmptyString => false
  | String _ s' => contains sub s'
  end.

(** [s.endswith(suffix)], used for the [*.zip] glob pattern. *)
Fixpoint endswith (s suffix : string) : bool :=
  String.eqb s suffix ||
  match s with
  | EmptyString => false
  | String _ s' => endswith s' suffix
  end.

(** The line feed, which Python writes ["\n"]. *)
Definition LF : string := String (Ascii.ascii_of_nat 10) EmptyString.

(** [sep.join(xs)] *)
Definition join (sep : string) (xs : list string) : string := String.concat sep xs.

(** [s * n] on strings. *)
Fixpoint str_mul (s : string) (n : nat) : string :=
  match n with
  | O => ""
  | S n' => s +:+ str_mul s n'
  end.

(** [x in xs] on a list of strings. *)
Definition str_in (x : string) (xs : list string) : bool :=
  existsb (String.eqb x) xs.

(** An instance of Python's [Exception], the class that both handlers of
    [download_from_kaggle] name.  [exn_msg] is [str(e)]. *)
Record exn := Exn { exn_class : string; exn_msg : string }.

(** Outcome of running a piece of Python code: it completes with a value
    or leaves through a raised exception. *)
Inductive result (A : Type) :=
| Ret (a : A)
| Raise (e : exn).
Arguments Ret {A} a.
Arguments Raise {A} e.

End Py.
Export Py.

(** ** The world *)

(** What [stat] reports about a directory entry: [is_file()] and
    [st_size].  An entry that is not a regular file (a directory, say)
    still exists. *)
Record node := Node { is_file : bool; st_size : N }.

(** The part of the filesystem the scripts observe.  [data_dir] maps the
    name of every entry directly under [DATA_DIR] to its node. *)
Record FS := mkFS {
  kaggle_json : bool;       (* the probe of ~/.kaggle/kaggle.json answers True *)
  download_script : bool;   (* BASE_DIR/download_data.py exists *)
  pipeline_script : bool;   (* BASE_DIR/run_full_pipeline.py exists *)
  data_dir : gmap string node
}.

(** Lines written by [print].  Strings and integers interpolated by an
    f-string are rendered into the text; a file-size line keeps the name and
    the size in bytes, because the [:.2f] rendering of the size in MB is
    floating point and is not modelled. *)
Inductive line :=
| Text (s : string)
| FileSize (prefix name : string) (size : N).    (* "{prefix}{name}: {size_mb:.2f} MB" *)

(** Observable events, in the order in which they happen. *)
Inductive event :=
| Print (l : line)
| Sleep (seconds : nat)                           (* time.sleep *)
| ApiNew                                          (* KaggleApi() *)
| Authenticate                                    (* api.authenticate() *)
| Download (competition path : string)            (* api.competition_download_files *)
| ExtractAll (zip : string)                       (* ZipFile(zip).extractall(DATA_DIR) *)
| Unlink (name : string)
| Subprocess (script : string).                   (* subprocess.run *)

Record World := mkWorld { fs : FS; trace : list event }.

(** ** A state-and-exception monad *)

Definition M (A : Type) : Type := World -> result A * World.

Definition ret {A} (a : A) : M A := fun w => (Ret a, w).

Definition bind {A B} (m : M A) (k : A -> M B) : M B :=
  fun w => match m w with
           | (Ret a, w') => k a w'
           | (Raise e, w') => (Raise e, w')
           end.

Definition raise {A} (e : exn) : M A := fun w => (Raise e, w).

(** [try: m  except Exception as e: h e] *)
Definition try_except {A} (m : M A) (h : exn -> M A) : M A :=
  fun w => match m w with
           | (Ret a, w') => (Ret a, w')
           | (Raise e, w') => h e w'
           end.

Declare Scope py_scope.
Delimit Scope py_scope with py.
Notation "x <- m ;; k" := (bind m (fun x => k))
  (at level 100, m at next level, right associativity) : py_scope.
Notation "m ;; k" := (bind m (fun _ => k))
  (at level 100, right associativity) : py_scope.
Local Open Scope py_scope.

Definition emit (ev : event) : M unit :=
  fun w => (Ret tt, mkWorld (fs w) (trace w ++ [ev])).

Definition print (l : line) : M unit := emit (Print l).

Definition get_fs : M FS := fun w => (Ret (fs w), w).

(** An outside call: the event is recorded, then the oracle decides, from
    everything that happened so far, how the filesystem changes and whether
    the call raises. *)
Definition oracle := World -> option exn * FS.

Definition call (ev : event) (o : oracle) : M unit :=
  fun w =>
    let w1 := mkWorld (fs w) (trace w ++ [ev]) in
    match o w1 with
    | (None, fs') => (Ret tt, mkWorld fs' (trace w1))
    | (Some e, fs') => (Raise e, mkWorld fs' (trace w1))
    end.

(** [for x in xs: body x] where the body neither breaks nor returns. *)
Fixpoint for_each {A} (xs : list A) (body : A -> M unit) : M unit :=
  match xs with
  | [] => ret tt
  | x :: xs' => body x ;; for_each xs' body
  end.

(** [(DATA_DIR / f).exists()] *)
Definition exists_in (d : gmap string node) (f : string) : bool :=
  match d !! f with Some _ => true | None => false end.

(** ** download_data.py *)

Module DownloadData.

(** What the module reads from its surroundings: the globals fixed at import
    time, and the outside it calls. *)
Record Env := mkEnv {
  KAGGLE_AVAILABLE : bool;
  REQUESTS_AVAILABLE : bool;
  DATA_DIR : string;                    (* str(DATA_DIR) *)
  kaggle_dir : string;                  (* str(Path.home() / '.kaggle') *)
  REQUIRED_FILES : list string;
  api_new : oracle;                     (* KaggleApi() *)
  api_authenticate : oracle;            (* api.authenticate() *)
  api_download : oracle;                (* api.competition_download_files(...) *)
  zip_extractall : string -> oracle;    (* ZipFile(zip, 'r').extractall(DATA_DIR) *)
  scandir : gmap string node -> list string;
    (* the order in which the filesystem lists the entries of a directory *)
  credential_probe_error : option exn
    (* what [Path.home()] or [kaggle_json.exists()] raises when the probe of
       the credential file does not answer True: [RuntimeError] without a
       home directory, [PermissionError] on a directory that may not be
       searched; [None] when the probe answers False *)
}.

(** The value of [REQUIRED_FILES] in the repository.  The programs below
    read the manifest from the environment, so that the verifier is
    specified for every manifest. *)
Definition repository_manifest : list string :=
  ["data_train.hdf5"; "data_val.hdf5"; "data_test.hdf5"].

Definition max_retries : nat := 5.
Definition competition : string := "brain-to-text-25".

(** [min(2 ** attempt, 60)] *)
Definition wait_time (attempt : nat) : nat := Nat.min (2 ^ attempt) 60.

(** The rate-limit signature tested by the inner handler. *)
Definition rate_limited (e : exn) : bool :=
  contains "429" (exn_msg e) || contains "Too Many Requests" (exn_msg e).

Definition set_data_dir (d : gmap string node) (f : FS) : FS :=
  mkFS (kaggle_json f) (download_script f) (pipeline_script f) d.

(** [sorted] on paths of one directory: by name. *)
Definition sorted (names : list string) : list string := merge_sort String.le names.

Section Program.

Variable env : Env.

(** *** Filesystem primitives *)

Definition FileNotFoundError (name : string) : exn :=
  Exn "FileNotFoundError"
      ("[Errno 2] No such file or directory: '" +:+ DATA_DIR env +:+ "/" +:+ name +:+ "'").

Definition IsADirectoryError (name : string) : exn :=
  Exn "IsADirectoryError"
      ("[Errno 21] Is a directory: '" +:+ DATA_DIR env +:+ "/" +:+ name +:+ "'").

(** [(DATA_DIR / name).stat()] *)
Definition stat (name : string) : M node :=
  fun w => match data_dir (fs w) !! name with
           | Some n => (Ret n, w)
           | None => (Raise (FileNotFoundError name), w)
           end.

(** [(DATA_DIR / name).is_file()] *)
Definition path_is_file (name : string) : M bool :=
  fun w => match data_dir (fs w) !! name with
           | Some n => (Ret (is_file n), w)
           | None => (Ret false, w)
           end.

(** [(DATA_DIR / name).unlink()] *)
Definition unlink (name : string) : M unit :=
  fun w =>
    let t := trace w ++ [Unlink name] in
    match data_dir (fs w) !! name with
    | Some n =>
        if is_file n
        then (Ret tt, mkWorld (set_data_dir (delete name (data_dir (fs w))) (fs w)) t)
        else (Raise (IsADirectoryError name), mkWorld (fs w) t)
    | None => (Raise (FileNotFoundError name), mkWorld (fs w) t)
    end.

(** [DATA_DIR.glob("*.zip")] and [DATA_DIR.glob("*")] *)
Definition glob_zip : M (list string) :=
  fun w => (Ret (List.filter (fun n => endswith n ".zip") (scandir env (data_dir (fs w)))), w).

Definition glob_all : M (list string) :=
  fun w => (Ret (scandir env (data_dir (fs w))), w).

(** [all((DATA_DIR / f).exists() for f in REQUIRED_FILES)] *)
Definition all_found (d : gmap string node) : bool :=
  forallb (exists_in d) (REQUIRED_FILES env).

(** *** download_from_kaggle *)

(** Lines 42-45: [(Path.home() / '.kaggle' / 'kaggle.json').exists()].  The
    probe answers True, answers False, or raises; it runs before the outer
    [try]. *)
Definition kaggle_json_exists : M bool :=
  fun w =>
    if kaggle_json (fs w) then (Ret true, w)
    else match credential_probe_error env with
         | Some e => (Raise e, w)
         | None => (Ret false, w)
         end.

(** Lines 72-76: extract every archive, then remove it. *)
Definition extract_zips : M unit :=
  zips <- glob_zip ;;
  for_each zips (fun zip_file =>
    print (Text ("Extracting " +:+ zip_file +:+ "...")) ;;
    call (ExtractAll zip_file) (zip_extractall env zip_file) ;;
    unlink zip_file).

(** Lines 85-89: list the regular files of the data directory. *)
Definition list_data_dir : M unit :=
  print (Text (LF +:+ "Files in data directory:")) ;;
  entries <- glob_all ;;
  for_each (sorted entries) (fun f =>
    isf <- path_is_file f ;;
    if isf then
      n <- stat f ;;
      print (FileSize "  " f (st_size n))
    else ret tt).

(** Lines 64-69: the backoff sleep and the download request. *)
Definition request (attempt : nat) : M unit :=
  (if (0 <? attempt)%nat then
     print (Text ("Waiting " +:+ pretty (wait_time attempt) +:+ " seconds before retry "
                  +:+ pretty (attempt + 1) +:+ "/" +:+ pretty max_retries +:+ "...")) ;;
     emit (Sleep (wait_time attempt))
   else ret tt) ;;
  call (Download competition (DATA_DIR env)) (api_download env).

(** Lines 79-91: verify, and return from the function either way. *)
Definition verify : M bool :=
  f <- get_fs ;;
  if all_found (data_dir f) then
    print (Text "✓ All data files downloaded successfully!") ;;
    ret true
  else
    list_data_dir ;;
    print (Text (LF +:+ "Some required files are missing after download")) ;;
    ret false.

(** The body of the inner [try] (lines 64-91).  It always leaves the
    function: with [return True], [return False], or an exception. *)
Definition attempt_body (attempt : nat) : M bool :=
  request attempt ;;
  extract_zips ;;
  verify.

(** The inner handler (lines 93-103).  [Some m] stands for leaving the
    loop through [m] ([return] or [raise]); [None] is [continue]. *)
Definition on_exception (attempt : nat) (e : exn) : option (M bool) :=
  if rate_limited e then
    if (attempt <? max_retries - 1)%nat then None
    else Some (print (Text ("Rate limited after " +:+ pretty max_retries +:+ " attempts.")) ;;
               print (Text "Please wait a few minutes and try again, or download manually.") ;;
               ret false)
  else Some (raise e).

(** [for attempt in <attempts>: try: ... except Exception as e: ...],
    followed by the [return False] of line 105. *)
Fixpoint retry_loop (attempts : list nat) : M bool :=
  match attempts with
  | [] => ret false
  | attempt :: rest =>
      fun w =>
        match attempt_body attempt w with
        | (Ret b, w') => (Ret b, w')
        | (Raise e, w') =>
            match on_exception attempt e with
            | Some leave => leave w'
            | None => (print (Text "Rate limited. Retrying...") ;; retry_loop rest) w'
            end
        end
  end.

(** Lines 52-58: create the client and authenticate. *)
Definition authenticate_session : M unit :=
  call ApiNew (api_new env) ;;
  call Authenticate (api_authenticate env) ;;
  print (Text "Authenticated with Kaggle API") ;;
  print (Text ("Downloading data from competition: " +:+ competition)).

(** The body of the outer [try] (lines 52-105). *)
Definition kaggle_session : M bool :=
  authenticate_session ;;
  retry_loop (seq 0 max_retries).

Definition download_from_kaggle : M bool :=
  if negb (KAGGLE_AVAILABLE env) then
    print (Text "Kaggle API not available. Install with: pip install kaggle") ;;
    ret false
  else
    found <- kaggle_json_exists ;;
    if negb found then
      print (Text "Kaggle credentials not found.") ;;
      print (Text "Please download kaggle.json from https://www.kaggle.com/settings and place it in:") ;;
      print (Text ("  " +:+ kaggle_dir env)) ;;
      ret false
    else
      try_except kaggle_session
        (fun e => print (Text ("Error downloading from Kaggle: " +:+ exn_msg e)) ;; ret false).

(** *** download_from_dryad *)

Definition download_from_dryad : M bool :=
  if negb (REQUESTS_AVAILABLE env) then
    print (Text "Requests library not available. Install with: pip install requests") ;;
    ret false
  else
    print (Text "Attempting to download from Dryad repository...") ;;
    print (Text "Note: Dryad may require manual download from:") ;;
    print (Text "  https://datadryad.org/dataset/doi:10.5061/dryad.dncjsxm85") ;;
    ret false.

(** *** check_existing_files *)

(** [[f for f in REQUIRED_FILES if (DATA_DIR / f).exists()]] *)
Definition existing (d : gmap string node) : list string :=
  List.filter (exists_in d) (REQUIRED_FILES env).

(** [[f for f in REQUIRED_FILES if f not in existing]] *)
Definition missing (d : gmap string node) : list string :=
  List.filter (fun f => negb (str_in f (existing d))) (REQUIRED_FILES env).

Definition print_sizes (prefix : string) (names : list string) : M unit :=
  for_each names (fun f =>
    n <- stat f ;;
    print (FileSize prefix f (st_size n))).

Definition check_existing_files : M bool :=
  f <- get_fs ;;
  let existing := existing (data_dir f) in
  if (List.length existing =? List.length (REQUIRED_FILES env))%nat then
    print (Text "✓ All data files already exist!") ;;
    print_sizes "  " (REQUIRED_FILES env) ;;
    ret true
  else
    (match existing with
     | _ :: _ =>
         print (Text ("Found " +:+ pretty (List.length existing) +:+ "/"
                      +:+ pretty (List.length (REQUIRED_FILES env)) +:+ " files:")) ;;
         print_sizes "  ✓ " existing ;;
         print (Text ("Missing: " +:+ join ", " (missing (data_dir f))))
     | [] => ret tt
     end) ;;
    ret false.

(** *** main *)

Definition main : M Z :=
  print (Text (str_mul "=" 60)) ;;
  print (Text "Brain-to-Text Data Download") ;;
  print (Text (str_mul "=" 60)) ;;
  ok <- check_existing_files ;;
  if ok then ret 0%Z else
  print (Text ((LF +:+ "Data directory: ") +:+ DATA_DIR env)) ;;
  print (Text ("Required files: " +:+ join ", " (REQUIRED_FILES env))) ;;
  print (Text (LF +:+ "[Method 1] Trying Kaggle API...")) ;;
  ok <- download_from_kaggle ;;
  if ok then ret 0%Z else
  print (Text (LF +:+ "[Method 2] Trying Dryad...")) ;;
  ok <- download_from_dryad ;;
  if ok then ret 0%Z else
  print (Text (LF +:+ str_mul "=" 60)) ;;
  print (Text "MANUAL DOWNLOAD REQUIRED") ;;
  print (Text (str_mul "=" 60)) ;;
  print (Text (LF +:+ "Please download the data files manually:")) ;;
  print (Text (LF +:+ "1. Kaggle Competition:")) ;;
  print (Text "   https://www.kaggle.com/competitions/brain-to-text-25/data") ;;
  print (Text "   - Accept competition rules") ;;
  print (Text "   - Download data_train.hdf5, data_val.hdf5, data_test.hdf5") ;;
  print (Text (LF +:+ "2. Or from Dryad:")) ;;
  print (Text "   https://datadryad.org/dataset/doi:10.5061/dryad.dncjsxm85") ;;
  print (Text (LF +:+ "3. Place the files in:")) ;;
  print (Text ("   " +:+ DATA_DIR env)) ;;
  print (Text (LF +:+ "Then run this script again to verify.")) ;;
  ret 1%Z.

(** [if __name__ == "__main__": sys.exit(main())]: the code the script
    exits with.  An exception that nothing catches ends the interpreter
    with code 1. *)
Definition script (w : World) : Z * World :=
  match main w with
  | (Ret code, w') => (code, w')
  | (Raise _, w') => (1%Z, w')
  end.

End Program.

End DownloadData.

(** ** run_complete_pipeline.py *)

Module CompletePipeline.

(** A child process started by [subprocess.run]: from the world at the
    time it starts, its [returncode] and the filesystem it leaves. *)
Definition process := World -> Z * FS.

Record Env := mkEnv {
  DATA_DIR : string;             (* str(DATA_DIR) *)
  download_data : process;       (* python download_data.py *)
  run_full_pipeline : process    (* python run_full_pipeline.py *)
}.

(** The status the operating system reports for [sys.exit(code)]: POSIX
    keeps the low eight bits. *)
Definition exit_status (code : Z) : Z := code mod 256.

(** [subprocess.run([sys.executable, script], cwd=BASE_DIR)] *)
Definition subprocess_run (script : string) (p : process) : World -> Z * World :=
  fun w =>
    let w1 := mkWorld (fs w) (trace w ++ [Subprocess script]) in
    (fst (p w1), mkWorld (snd (p w1)) (trace w1)).

Definition say (l : string) (w : World) : World :=
  mkWorld (fs w) (trace w ++ [Print (Text l)]).

(** [all((DATA_DIR / f"data_{split}.hdf5").exists()
         for split in ["train", "val", "test"])] *)
Definition all_exist (d : gmap string node) : bool :=
  forallb (fun split => exists_in d ("data_" +:+ split +:+ ".hdf5"))
          ["train"; "val"; "test"].

Section Program.

Variable env : Env.

(** Lines 25-58.  [Some code] is [sys.exit(code)]; [None] falls through
    to step 1. *)
Definition step0 (w : World) : option Z * World :=
  let w := say (str_mul "=" 70) w in
  let w := say "BRAIN-TO-TEXT COMPLETE PIPELINE" w in
  let w := say (str_mul "=" 70) w in
  let w := say (LF +:+ "[STEP 0] Checking for data files...") w in
  if download_script (fs w) then
    let '(returncode, w) := subprocess_run "download_data.py" (download_data env) w in
    if negb (returncode =? 0)%Z then
      let w := say (LF +:+ "⚠ Data download failed or files not found.") w in
      let w := say ("Please ensure data files are in: " +:+ DATA_DIR env) w in
      let w := say "Required: data_train.hdf5, data_val.hdf5, data_test.hdf5" w in
      if negb (all_exist (data_dir (fs w))) then
        let w := say (LF +:+ "❌ Cannot proceed without data files.") w in
        let w := say (LF +:+ "To download manually:") w in
        let w := say "1. Go to: https://www.kaggle.com/competitions/brain-to-text-25/data" w in
        let w := say "2. Accept competition rules" w in
        let w := say "3. Download the HDF5 files" w in
        let w := say ("4. Place them in: " +:+ DATA_DIR env) w in
        (Some 1%Z, w)
      else
        (None, say "✓ Found data files, proceeding..." w)
    else (None, w)
  else
    if negb (all_exist (data_dir (fs w))) then
      (Some 1%Z, say "❌ Data files not found. Please download them first." w)
    else (None, w).

(** Lines 60-68.  Every path ends in [sys.exit]. *)
Definition step1 (w : World) : Z * World :=
  let w := say (LF +:+ "[STEP 1] Running preprocessing, training, and inference...") w in
  if pipeline_script (fs w) then
    let '(returncode, w) := subprocess_run "run_full_pipeline.py" (run_full_pipeline env) w in
    (returncode, w)
  else
    (1%Z, say "❌ Pipeline script not found!" w).

(** The module body: the code passed to [sys.exit] and the final world. *)
Definition run_complete_pipeline (w : World) : Z * World :=
  match step0 w with
  | (Some code, w') => (code, w')
  | (None, w') => step1 w'
  end.

End Program.

End CompletePipeline.

(** ** Observations on histories *)

Module Observe.

Definition network_event (ev : event) : bool :=
  match ev with
  | ApiNew | Authenticate | Download _ _ => true
  | _ => false
  end.

Definition is_download (ev : event) : bool :=
  match ev with Download _ _ => true | _ => false end.

(** Neither a sleep nor a download request. *)
Definition quiet (ev : event) : bool :=
  match ev with Sleep _ | Download _ _ => false | _ => true end.

Definition local_event (ev : event) : bool := negb (network_event ev).

(** The network calls and the number of download requests of a history. *)
Definition network_calls (t : list event) : list event := List.filter network_event t.
Definition downloads (t : list event) : nat := List.length (List.filter is_download t).

(** For each download request of a history, in order, the sleeps that
    separate it from the request before it (or from the start). *)
Fixpoint waits_from (slept : list nat) (t : list event) : list (list nat) :=
  match t with
  | [] => []
  | Download _ _ :: t' => slept :: waits_from [] t'
  | Sleep s :: t' => waits_from (slept ++ [s]) t'
  | _ :: t' => waits_from slept t'
  end.

Definition waits (t : list event) : list (list nat) := waits_from [] t.

(** The events a program adds to the history when run from [w]. *)
Definition events {A} (m : M A) (w : World) : list event :=
  drop (List.length (trace w)) (trace (snd (m w))).

(** [m] only adds events that satisfy [p]. *)
Definition only (p : event -> bool) {A} (m : M A) : Prop :=
  forall w, exists t, trace (snd (m w)) = trace w ++ t /\ forallb p t = true.

End Observe.
Export Observe.

(** ** Expected histories of download_from_kaggle *)

Module Expected.
Import DownloadData.

Section Histories.

Variable env : Env.

(** What [request] adds before the download request itself. *)
Definition before_request (attempt : nat) : list event :=
  if (0 <? attempt)%nat then
    [Print (Text ("Waiting " +:+ pretty (wait_time attempt) +:+ " seconds before retry "
                  +:+ pretty (attempt + 1) +:+ "/" +:+ pretty max_retries +:+ "..."));
     Sleep (wait_time attempt)]
  else [].

Definition request_events (attempt : nat) : list event :=
  before_request attempt ++ [Download competition (DATA_DIR env)].

(** The world in which the download oracle is consulted at [attempt]. *)
Definition at_request (attempt : nat) (w : World) : World :=
  mkWorld (fs w) (trace w ++ request_events attempt).

(** The sleeps between the request of [attempt] (counted from 0) and the
    request before it. *)
Definition sleeps_before (attempt : nat) : list nat :=
  if (0 <? attempt)%nat then [wait_time attempt] else [].

(** The loop over [attempts] when every request is rate limited. *)
Fixpoint rate_limited_events (attempts : list nat) : list event :=
  match attempts with
  | [] => []
  | attempt :: rest =>
      request_events attempt ++
      (if (attempt <? max_retries - 1)%nat
       then Print (Text "Rate limited. Retrying...") :: rate_limited_events rest
       else [Print (Text ("Rate limited after " +:+ pretty max_retries +:+ " attempts."));
             Print (Text "Please wait a few minutes and try again, or download manually.")])
  end.

Definition authenticated_events : list event :=
  [ApiNew; Authenticate;
   Print (Text "Authenticated with Kaggle API");
   Print (Text ("Downloading data from competition: " +:+ competition))].

(** The whole run against a source that always answers 429. *)
Definition exhausted_run : list event :=
  let request := Download "brain-to-text-25" (DATA_DIR env) in
  let retrying := Print (Text "Rate limited. Retrying...") in
  [ApiNew; Authenticate;
   Print (Text "Authenticated with Kaggle API");
   Print (Text "Downloading data from competition: brain-to-text-25");
   request; retrying;
   Print (Text "Waiting 2 seconds before retry 2/5..."); Sleep 2; request; retrying;
   Print (Text "Waiting 4 seconds before retry 3/5..."); Sleep 4; request; retrying;
   Print (Text "Waiting 8 seconds before retry 4/5..."); Sleep 8; request; retrying;
   Print (Text "Waiting 16 seconds before retry 5/5..."); Sleep 16; request;
   Print (Text "Rate limited after 5 attempts.");
   Print (Text "Please wait a few minutes and try again, or download manually.")].

(** The run without a credential file. *)
Definition credential_missing_run : list event :=
  [Print (Text "Kaggle credentials not found.");
   Print (Text "Please download kaggle.json from https://www.kaggle.com/settings and place it in:");
   Print (Text ("  " +:+ kaggle_dir env))].

(** The size lines for the regular files among [names]. *)
Definition file_report (d : gmap string node) (names : list string) : list event :=
  flat_map (fun f => match d !! f with
                     | Some n => if is_file n then [Print (FileSize "  " f (st_size n))] else []
                     | None => []
                     end) names.

(** The size lines of [print_sizes]. *)
Definition size_lines (prefix : string) (d : gmap string node) (names : list string) : list event :=
  flat_map (fun f => match d !! f with
                     | Some n => [Print (FileSize prefix f (st_size n))]
                     | None => []
                     end) names.

End Histories.

End Expected.
Export Expected.

(** ** Expected histories of run_complete_pipeline *)

Module ExpectedPipeline.

(** The world in which the pipeline process starts, when step 1 begins in
    [w]. *)
Definition pipeline_start (w : World) : World :=
  mkWorld (fs w)
    ((trace w ++ [Print (Text (LF +:+ "[STEP 1] Running preprocessing, training, and inference..."))])
       ++ [Subprocess "run_full_pipeline.py"]).

End ExpectedPipeline.
Export ExpectedPipeline.

(** ** Scenarios *)

Module Scenario.
Import DownloadData.

(** Oracles: a call that succeeds and changes nothing, and calls that
    raise. *)
Definition succeed : oracle := fun w => (None, fs w).
Definition fail_with (e : exn) : oracle := fun w => (Some e, fs w).

Definition too_many_requests : exn := Exn "ApiException" "(429) Too Many Requests".
Definition connection_error : exn := Exn "ConnectionError" "Connection refused".

Definition listing (d : gmap string node) : list string := (map_to_list d).*1.

Definition env_with (available : bool) (download : oracle) : Env :=
  mkEnv available true "/repo/data" "/home/user/.kaggle" repository_manifest
        succeed succeed download (fun _ => succeed) listing None.

Definition MB : N := 1048576.

(** Data directories. *)
Definition complete_dir : gmap string node :=
  <["data_train.hdf5" := Node true (900 * MB)]>
    (<["data_val.hdf5" := Node true (100 * MB)]>
      (<["data_test.hdf5" := Node true (100 * MB)]> ∅)).

Definition two_of_three : gmap string node :=
  <["data_train.hdf5" := Node true (900 * MB)]>
    (<["data_val.hdf5" := Node true (100 * MB)]> ∅).

(** [data_train.hdf5] is a directory. *)
Definition train_is_a_directory : gmap string node :=
  <["data_train.hdf5" := Node false 4096]>
    (<["data_val.hdf5" := Node true (100 * MB)]>
      (<["data_test.hdf5" := Node true (100 * MB)]> ∅)).

Definition only_a_bin : gmap string node := {["a.bin" := Node true 1572864]}.
Definition abc_manifest : list string := ["a.bin"; "b.bin"; "c.bin"].
Definition abc_env : Env :=
  mkEnv true true "/repo/data" "/home/user/.kaggle" abc_manifest
        succeed succeed succeed (fun _ => succeed) listing None.

Definition world_of (credential : bool) (d : gmap string node) : World :=
  mkWorld (mkFS credential true true d) [].

(** A download that leaves two of the three files and reports no error. *)
Definition partial_download : oracle :=
  fun w => (None, set_data_dir two_of_three (fs w)).

(** A download that leaves all three files. *)
Definition full_download : oracle :=
  fun w => (None, set_data_dir complete_dir (fs w)).

(** Child processes of the runner. *)
Definition exits_with (returncode : Z) : CompletePipeline.process :=
  fun w => (returncode, fs w).

(** [download_data.py] fetching the three files and exiting with 0. *)
Definition download_succeeds : CompletePipeline.process :=
  fun w => (0%Z, set_data_dir complete_dir (fs w)).

Definition runner_env (download pipeline : CompletePipeline.process) : CompletePipeline.Env :=
  CompletePipeline.mkEnv "/repo/data" download pipeline.

Definition runner_world (pipeline_present : bool) (d : gmap string node) : World :=
  mkWorld (mkFS true true pipeline_present d) [].

End Scenario.

(** ** More observations, and the two scripts together *)

Module History.

(** The sleeps of a history, in order, and their total. *)
Definition sleeps (t : list event) : list nat :=
  flat_map (fun ev => match ev with Sleep s => [s] | _ => [] end) t.

Definition total_sleep (t : list event) : nat := fold_right Nat.add 0 (sleeps t).

(** The file names of the size lines of a history. *)
Definition reported_names (t : list event) : list string :=
  flat_map (fun ev => match ev with Print (FileSize _ name _) => [name] | _ => [] end) t.

(** The scripts started as child processes. *)
Definition subprocesses (t : list event) : list string :=
  flat_map (fun ev => match ev with Subprocess script => [script] | _ => [] end) t.

(** The last line of a successful [download_from_kaggle]. *)
Definition success_line : event := Print (Text "✓ All data files downloaded successfully!").

(** The pattern of [glob("*.zip")]. *)
Definition zip_name (name : string) : bool := endswith name ".zip".

(** What [main] prints before it returns 1. *)
Definition manual_instructions (env : DownloadData.Env) : list event :=
  [Print (Text (LF +:+ str_mul "=" 60));
   Print (Text "MANUAL DOWNLOAD REQUIRED");
   Print (Text (str_mul "=" 60));
   Print (Text (LF +:+ "Please download the data files manually:"));
   Print (Text (LF +:+ "1. Kaggle Competition:"));
   Print (Text "   https://www.kaggle.com/competitions/brain-to-text-25/data");
   Print (Text "   - Accept competition rules");
   Print (Text "   - Download data_train.hdf5, data_val.hdf5, data_test.hdf5");
   Print (Text (LF +:+ "2. Or from Dryad:"));
   Print (Text "   https://datadryad.org/dataset/doi:10.5061/dryad.dncjsxm85");
   Print (Text (LF +:+ "3. Place the files in:"));
   Print (Text ("   " +:+ DownloadData.DATA_DIR env));
   Print (Text (LF +:+ "Then run this script again to verify."))].

Definition is_print (ev : event) : bool :=
  match ev with Print _ => true | _ => false end.

(** What [check_existing_files] prints for the data directory [d]. *)
Definition check_events (env : DownloadData.Env) (d : gmap string node) : list event :=
  if DownloadData.all_found env d then
    Print (Text "✓ All data files already exist!")
    :: size_lines "  " d (DownloadData.REQUIRED_FILES env)
  else
    match DownloadData.existing env d with
    | [] => []
    | _ :: _ =>
        Print (Text ("Found " +:+ pretty (List.length (DownloadData.existing env d)) +:+ "/"
                     +:+ pretty (List.length (DownloadData.REQUIRED_FILES env)) +:+ " files:"))
        :: size_lines "  ✓ " d (DownloadData.existing env d)
        ++ [Print (Text ("Missing: " +:+ join ", " (DownloadData.missing env d)))]
    end.

(** What [main] has done when it turns to Kaggle. *)
Definition main_preamble (env : DownloadData.Env) (d : gmap string node) : list event :=
  [Print (Text (str_mul "=" 60));
   Print (Text "Brain-to-Text Data Download");
   Print (Text (str_mul "=" 60))]
  ++ check_events env d
  ++ [Print (Text ((LF +:+ "Data directory: ") +:+ DownloadData.DATA_DIR env));
      Print (Text ("Required files: " +:+ join ", " (DownloadData.REQUIRED_FILES env)));
      Print (Text (LF +:+ "[Method 1] Trying Kaggle API..."))].

(** What [download_from_dryad] prints. *)
Definition dryad_events (env : DownloadData.Env) : list event :=
  if DownloadData.REQUESTS_AVAILABLE env then
    [Print (Text "Attempting to download from Dryad repository...");
     Print (Text "Note: Dryad may require manual download from:");
     Print (Text "  https://datadryad.org/dataset/doi:10.5061/dryad.dncjsxm85")]
  else
    [Print (Text "Requests library not available. Install with: pip install requests")].

(** [download_data.py] run as the child process of the runner: its exit
    code and the filesystem it leaves.  What the child prints is not part
    of the runner's history. *)
Definition download_data_process (env : DownloadData.Env) : CompletePipeline.process :=
  fun w => (fst (DownloadData.script env w), fs (snd (DownloadData.script env w))).

(** The world in which the runner starts [download_data.py]. *)
Definition download_start (w : World) : World :=
  mkWorld (fs w)
    (trace w ++ [Print (Text (str_mul "=" 70));
                 Print (Text "BRAIN-TO-TEXT COMPLETE PIPELINE");
                 Print (Text (str_mul "=" 70));
                 Print (Text (LF +:+ "[STEP 0] Checking for data files..."));
                 Subprocess "download_data.py"]).

End History.
Export History.

Module MoreScenarios.
Import DownloadData.

(** An archive whose extraction fails; the message names a member. *)
Definition bad_crc : exn := Exn "BadZipFile" "Bad CRC-32 for file 'part429.bin'".

Definition one_archive : gmap string node := {["brain-to-text-25.zip" := Node true 1000]}.

(** A download that leaves one archive, which cannot be extracted. *)
Definition archive_download : oracle :=
  fun w => (None, set_data_dir one_archive (fs w)).

Definition corrupt_archive_env : Env :=
  mkEnv true true "/repo/data" "/home/user/.kaggle" repository_manifest
        Scenario.succeed Scenario.succeed archive_download
        (fun _ => Scenario.fail_with bad_crc) Scenario.listing None.

(** An archive that extracts to the three data files. *)
Definition extract_all_three : oracle :=
  fun w => (None, set_data_dir (Scenario.complete_dir ∪ data_dir (fs w)) (fs w)).

Definition good_archive_env : Env :=
  mkEnv true true "/repo/data" "/home/user/.kaggle" repository_manifest
        Scenario.succeed Scenario.succeed archive_download
        (fun _ => extract_all_three) Scenario.listing None.

(** A source that answers the first [k] requests with 429 and then
    delivers the three files. *)
Definition rate_limited_then_full (k : nat) : oracle :=
  fun w =>
    if (downloads (trace w) <=? k)%nat
    then (Some Scenario.too_many_requests, fs w)
    else (None, set_data_dir Scenario.complete_dir (fs w)).

(** Authentication that fails. *)
Definition unauthorized : exn := Exn "ApiException" "(401) Unauthorized".

Definition unauthorized_env : Env :=
  mkEnv true true "/repo/data" "/home/user/.kaggle" repository_manifest
        Scenario.succeed (Scenario.fail_with unauthorized) Scenario.full_download
        (fun _ => Scenario.succeed) Scenario.listing None.

(** A home directory whose [.kaggle] may not be searched: the probe of the
    credential file raises. *)
Definition permission_denied : exn :=
  Exn "PermissionError" "[Errno 13] Permission denied: '/home/user/.kaggle/kaggle.json'".

Definition locked_home_env : Env :=
  mkEnv true true "/repo/data" "/home/user/.kaggle" repository_manifest
        Scenario.succeed Scenario.succeed Scenario.full_download
        (fun _ => Scenario.succeed) Scenario.listing (Some permission_denied).

End MoreScenarios.

(** ** Properties of the monad and of histories *)

Section MonadFacts.

Context {A B : Type}.

Lemma bind_Ret (m : M A) (k : A -> M B) w a w1 :
  m w = (Ret a, w1) -> bind m k w = k a w1.
Proof. unfold bind. intros ->. reflexivity. Qed.

Lemma bind_Raise (m : M A) (k : A -> M B) w e w1 :
  m w = (Raise e, w1) -> bind m k w = (Raise e, w1).
Proof. unfold bind. intros ->. reflexivity. Qed.

Lemma bind_inv_Ret (m : M A) (k : A -> M B) w b w2 :
  bind m k w = (Ret b, w2) ->
  exists a w1, m w = (Ret a, w1) /\ k a w1 = (Ret b, w2).
Proof.
  unfold bind. destruct (m w) as [[a|e] w1]; intros H.
  - exists a, w1. auto.
  - discriminate.
Qed.

End MonadFacts.

Lemma events_of_extension {A} (m : M A) w t :
  trace (snd (m w)) = trace w ++ t -> events m w = t.
Proof. unfold events. intros ->. apply drop_app_length. Qed.

Lemma downloads_app t1 t2 : downloads (t1 ++ t2) = downloads t1 + downloads t2.
Proof. unfold downloads. rewrite List.filter_app, List.length_app. reflexivity. Qed.

Lemma network_calls_app t1 t2 :
  network_calls (t1 ++ t2) = network_calls t1 ++ network_calls t2.
Proof. apply List.filter_app. Qed.

Lemma quiet_downloads t : forallb quiet t = true -> downloads t = 0.
Proof.
  unfold downloads. induction t as [|ev t IH]; simpl; [reflexivity|].
  intros [Hq Ht]%andb_prop. destruct ev; simpl in *; try discriminate; auto.
Qed.

Lemma local_network_calls t : forallb local_event t = true -> network_calls t = [].
Proof.
  unfold network_calls. induction t as [|ev t IH]; simpl; [reflexivity|].
  intros [Hq Ht]%andb_prop. destruct ev; simpl in *; try discriminate; auto.
Qed.

Lemma waits_from_quiet slept t1 t2 :
  forallb quiet t1 = true -> waits_from slept (t1 ++ t2) = waits_from slept t2.
Proof.
  revert slept. induction t1 as [|ev t1 IH]; intros slept; simpl; [reflexivity|].
  intros [Hq Ht]%andb_prop. destruct ev; simpl in *; try discriminate; auto.
Qed.

Lemma waits_from_quiet_nil slept t : forallb quiet t = true -> waits_from slept t = [].
Proof.
  intros H. rewrite <- (List.app_nil_r t). rewrite waits_from_quiet by assumption. reflexivity.
Qed.

(** *** Programs that only add events of one kind *)

Section Only.

Variable p : event -> bool.

Lemma only_ret {A} (a : A) : only p (ret a).
Proof. intros w. exists []. simpl. rewrite List.app_nil_r. auto. Qed.

Lemma only_raise {A} e : only p (@raise A e).
Proof. intros w. exists []. simpl. rewrite List.app_nil_r. auto. Qed.

Lemma only_get_fs : only p get_fs.
Proof. intros w. exists []. simpl. rewrite List.app_nil_r. auto. Qed.

Lemma only_emit ev : p ev = true -> only p (emit ev).
Proof. intros H w. exists [ev]. simpl. rewrite H. auto. Qed.

Lemma only_print l : p (Print l) = true -> only p (print l).
Proof. apply only_emit. Qed.

Lemma only_call ev o : p ev = true -> only p (call ev o).
Proof.
  intros H w. exists [ev]. unfold call. simpl.
  destruct (o _) as [[e|] f]; simpl; rewrite H; auto.
Qed.

Lemma only_bind {A B} (m : M A) (k : A -> M B) :
  only p m -> (forall a, only p (k a)) -> only p (bind m k).
Proof.
  intros Hm Hk w. unfold bind. destruct (Hm w) as (t1 & E1 & P1).
  destruct (m w) as [[a|e] w1]; simpl in *.
  - destruct (Hk a w1) as (t2 & E2 & P2). exists (t1 ++ t2).
    rewrite E2, E1, <- List.app_assoc, forallb_app, P1, P2. auto.
  - exists t1. auto.
Qed.

Lemma only_try_except {A} (m : M A) (h : exn -> M A) :
  only p m -> (forall e, only p (h e)) -> only p (try_except m h).
Proof.
  intros Hm Hh w. unfold try_except. destruct (Hm w) as (t1 & E1 & P1).
  destruct (m w) as [[a|e] w1]; simpl in *.
  - exists t1. auto.
  - destruct (Hh e w1) as (t2 & E2 & P2). exists (t1 ++ t2).
    rewrite E2, E1, <- List.app_assoc, forallb_app, P1, P2. auto.
Qed.

Lemma only_for_each {A} (xs : list A) (body : A -> M unit) :
  (forall x, only p (body x)) -> only p (for_each xs body).
Proof.
  intros Hb. induction xs as [|x xs IH]; simpl.
  - apply only_ret.
  - apply only_bind; auto.
Qed.

Lemma only_if {A} (b : bool) (m1 m2 : M A) :
  only p m1 -> only p m2 -> only p (if b then m1 else m2).
Proof. destruct b; auto. Qed.

End Only.

(** ** The substring test *)

Lemma prefix_spec sub s :
  String.prefix sub s = true <-> exists post, s = sub +:+ post.
Proof.
  revert s. induction sub as [|a sub IH]; intros s.
  - destruct s; simpl; split; eauto.
  - destruct s as [|b s]; simpl.
    + split; [discriminate|]. intros (post & H). discriminate.
    + destruct (Ascii.ascii_dec a b) as [->|Hne].
      * rewrite IH. split; intros (post & H); exists post.
        -- rewrite H. reflexivity.
        -- injection H as H. exact H.
      * split; [discriminate|]. intros (post & H). injection H as H1 H2. congruence.
Qed.

Lemma contains_spec sub s :
  contains sub s = true <-> exists pre post, s = pre +:+ sub +:+ post.
Proof.
  induction s as [|c s IH]; cbn [contains]; rewrite orb_true_iff, prefix_spec.
  - split.
    + intros [(post & H)|H]; [|discriminate]. exists "", post. exact H.
    + intros (pre & post & H). left. destruct pre; [|discriminate]. exists post. exact H.
  - rewrite IH. split.
    + intros [(post & H)|(pre & post & H)].
      * exists "", post. exact H.
      * exists (String c pre), post. rewrite H. reflexivity.
    + intros (pre & post & H). destruct pre as [|c' pre].
      * left. exists post. exact H.
      * right. injection H as _ H. eauto.
Qed.

(** The handler's test is: the message has "429" or "Too Many Requests"
    somewhere in it. *)
Lemma rate_limited_spec e :
  DownloadData.rate_limited e = true <->
  (exists pre post, exn_msg e = pre +:+ "429" +:+ post) \/
  (exists pre post, exn_msg e = pre +:+ "Too Many Requests" +:+ post).
Proof.
  unfold DownloadData.rate_limited. rewrite orb_true_iff, !contains_spec. reflexivity.
Qed.

(** ** download_data.py: which events each part adds *)

Module DownloadFacts.
Import DownloadData.

Section Local.

Variable env : Env.

(** [p] accepts everything the verification and extraction steps do. *)
Variable p : event -> bool.
Hypothesis p_print : forall l, p (Print l) = true.
Hypothesis p_extract : forall z, p (ExtractAll z) = true.
Hypothesis p_unlink : forall z, p (Unlink z) = true.

Lemma only_stat name : only p (stat env name).
Proof.
  intros w. exists []. unfold stat.
  destruct (data_dir (fs w) !! name); simpl; rewrite List.app_nil_r; auto.
Qed.

Lemma only_path_is_file name : only p (path_is_file name).
Proof.
  intros w. exists []. unfold path_is_file.
  destruct (data_dir (fs w) !! name); simpl; rewrite List.app_nil_r; auto.
Qed.

Lemma only_unlink name : only p (unlink env name).
Proof.
  intros w. exists [Unlink name]. unfold unlink.
  destruct (data_dir (fs w) !! name) as [n|]; [destruct (is_file n)|];
    simpl; rewrite p_unlink; auto.
Qed.

Lemma only_extract_zips : only p (extract_zips env).
Proof.
  unfold extract_zips. apply only_bind.
  - intros w. exists []. simpl. rewrite List.app_nil_r; auto.
  - intros zips. apply only_for_each. intros z.
    repeat (apply only_bind; intros); auto using only_print, only_call, only_unlink.
Qed.

Lemma only_list_data_dir : only p (list_data_dir env).
Proof.
  unfold list_data_dir. apply only_bind; [apply only_print; auto|]. intros _.
  apply only_bind.
  - intros w. exists []. simpl. rewrite List.app_nil_r; auto.
  - intros entries. apply only_for_each. intros f.
    apply only_bind; [apply only_path_is_file|]. intros isf.
    apply only_if; [|apply only_ret].
    apply only_bind; [apply only_stat|]. intros n. apply only_print; auto.
Qed.

Lemma only_verify : only p (verify env).
Proof.
  unfold verify. apply only_bind; [apply only_get_fs|]. intros f.
  apply only_if.
  - apply only_bind; [apply only_print; auto|]. intros _. apply only_ret.
  - apply only_bind; [apply only_list_data_dir|]. intros _.
    apply only_bind; [apply only_print; auto|]. intros _. apply only_ret.
Qed.

Lemma only_print_sizes prefix names : only p (print_sizes env prefix names).
Proof.
  unfold print_sizes. apply only_for_each. intros f.
  apply only_bind; [apply only_stat|]. intros n. apply only_print; auto.
Qed.

Lemma only_check_existing_files : only p (check_existing_files env).
Proof.
  unfold check_existing_files. apply only_bind; [apply only_get_fs|]. intros f.
  cbv zeta. apply only_if.
  - apply only_bind; [apply only_print; auto|]. intros _.
    apply only_bind; [apply only_print_sizes|]. intros _. apply only_ret.
  - apply only_bind; [|intros; apply only_ret].
    destruct (existing env (data_dir f)); [apply only_ret|].
    apply only_bind; [apply only_print; auto|]. intros _.
    apply only_bind; [apply only_print_sizes|]. intros _. apply only_print; auto.
Qed.

Lemma only_download_from_dryad : only p (download_from_dryad env).
Proof.
  unfold download_from_dryad. apply only_if.
  - apply only_bind; [apply only_print; auto|]. intros _. apply only_ret.
  - do 3 (apply only_bind; [apply only_print; auto|]; intros _). apply only_ret.
Qed.

End Local.

Section Requests.

Variable env : Env.

Lemma request_eq attempt w :
  request env attempt w =
    (match fst (api_download env (at_request env attempt w)) with
     | None => Ret tt
     | Some e => Raise e
     end,
     mkWorld (snd (api_download env (at_request env attempt w)))
             (trace w ++ request_events env attempt)).
Proof.
  unfold request, at_request, request_events, before_request, bind, call, print, emit, ret.
  destruct (0 <? attempt)%nat; simpl.
  - rewrite <- !List.app_assoc. simpl.
    destruct (api_download env _) as [[e|] f]; reflexivity.
  - destruct (api_download env _) as [[e|] f]; reflexivity.
Qed.

Lemma attempt_body_events attempt w :
  exists q, trace (snd (attempt_body env attempt w))
            = trace w ++ request_events env attempt ++ q
            /\ forallb quiet q = true.
Proof.
  unfold attempt_body, bind. rewrite request_eq.
  destruct (fst (api_download env _)) as [e|].
  - exists []. simpl. rewrite List.app_nil_r. auto.
  - set (w1 := mkWorld _ _).
    assert (Hq : only quiet (bind (extract_zips env) (fun _ => verify env))).
    { apply only_bind; [apply only_extract_zips|intros; apply only_verify]; reflexivity. }
    destruct (Hq w1) as (q & E & Q). exists q. unfold bind in E.
    rewrite E. subst w1. simpl. rewrite <- List.app_assoc. auto.
Qed.

End Requests.


(** ** The retry loop *)

Section RetryLoop.

Variable env : Env.

Lemma attempt_body_rate_limited attempt w e :
  fst (api_download env (at_request env attempt w)) = Some e ->
  attempt_body env attempt w =
    (Raise e, mkWorld (snd (api_download env (at_request env attempt w)))
                      (trace w ++ request_events env attempt)).
Proof.
  intros H. unfold attempt_body, bind. rewrite request_eq, H. reflexivity.
Qed.

(** A source that always answers with a rate-limit error is asked once per
    element of [attempts], up to and including attempt [max_retries - 1]. *)
Lemma retry_loop_rate_limited attempts :
  (forall w', exists e, fst (api_download env w') = Some e /\ rate_limited e = true) ->
  forall w, exists f,
    retry_loop env attempts w
    = (Ret false, mkWorld f (trace w ++ rate_limited_events env attempts)).
Proof.
  intros Hsrc. induction attempts as [|attempt rest IH]; intros w.
  - exists (fs w). simpl. rewrite List.app_nil_r. destruct w; reflexivity.
  - destruct (Hsrc (at_request env attempt w)) as (e & He & Hrl).
    cbn [retry_loop rate_limited_events].
    rewrite (attempt_body_rate_limited _ _ _ He).
    unfold on_exception. rewrite Hrl.
    destruct (attempt <? max_retries - 1)%nat.
    + unfold bind, print, emit. cbn [fs trace].
      edestruct IH as (f & ->). exists f. cbn [trace].
      rewrite <- !List.app_assoc. reflexivity.
    + eexists. unfold bind, print, emit, ret. cbn [fs trace].
      rewrite <- !List.app_assoc. reflexivity.
Qed.

Lemma exhausted_run_eq :
  authenticated_events ++ rate_limited_events env (seq 0 max_retries) = exhausted_run env.
Proof. reflexivity. Qed.

Lemma authenticate_session_ok w :
  fst (api_new env (mkWorld (fs w) (trace w ++ [ApiNew]))) = None ->
  (forall w', fst (api_authenticate env w') = None) ->
  exists f, authenticate_session env w
            = (Ret tt, mkWorld f (trace w ++ authenticated_events)).
Proof.
  intros Hnew Hauth. unfold authenticate_session, bind, call, print, emit.
  cbn [fs trace]. destruct (api_new env _) as [o f1]; simpl in Hnew; subst o.
  cbn [fs trace].
  specialize (Hauth (mkWorld f1 ((trace w ++ [ApiNew]) ++ [Authenticate]))).
  destruct (api_authenticate env _) as [o f2]; simpl in Hauth; subst o.
  exists f2. cbn [fs trace]. rewrite <- !List.app_assoc. reflexivity.
Qed.

End RetryLoop.

(** C3.  Against a source that answers every download request with a
    rate-limit error, [download_from_kaggle] (with the client library, the
    credential file and a successful authentication) returns [False] after
    exactly [max_retries] = 5 download requests, separated by sleeps of 2,
    4, 8 and 16 seconds, and ends with the rate-limited-after-5-attempts
    message.  The function is total, so the run always ends. *)
Theorem rate_limited_source_exhausts_retries (env : Env) (w : World) :
  KAGGLE_AVAILABLE env = true ->
  kaggle_json (fs w) = true ->
  (forall w', fst (api_new env w') = None) ->
  (forall w', fst (api_authenticate env w') = None) ->
  (forall w', exists e, fst (api_download env w') = Some e /\ rate_limited e = true) ->
  fst (download_from_kaggle env w) = Ret false /\
  events (download_from_kaggle env) w = exhausted_run env /\
  downloads (events (download_from_kaggle env) w) = max_retries.
Proof.
  intros Havail Hcred Hnew Hauth Hsrc.
  destruct (authenticate_session_ok env w (Hnew _) Hauth) as (f0 & E0).
  destruct (retry_loop_rate_limited env (seq 0 max_retries) Hsrc
              (mkWorld f0 (trace w ++ authenticated_events))) as (f1 & E1).
  assert (E : download_from_kaggle env w
              = (Ret false, mkWorld f1 (trace w ++ exhausted_run env))).
  { unfold download_from_kaggle. rewrite Havail. cbn [negb].
    unfold bind at 1. unfold kaggle_json_exists. rewrite Hcred. cbn [negb].
    unfold try_except, kaggle_session, bind. rewrite E0, E1.
    cbn [trace]. rewrite <- List.app_assoc, exhausted_run_eq. reflexivity. }
  assert (Ev : events (download_from_kaggle env) w = exhausted_run env).
  { apply events_of_extension. rewrite E. reflexivity. }
  rewrite Ev, E. repeat split; reflexivity.
Qed.

Lemma rate_limited_source_exhausts_retries_witness :
  let env := Scenario.env_with true (Scenario.fail_with Scenario.too_many_requests) in
  let w := Scenario.world_of true ∅ in
  fst (download_from_kaggle env w) = Ret false /\
  events (download_from_kaggle env) w = exhausted_run env /\
  downloads (events (download_from_kaggle env) w) = 5.
Proof.
  apply (rate_limited_source_exhausts_retries
           (Scenario.env_with true (Scenario.fail_with Scenario.too_many_requests))
           (Scenario.world_of true ∅)).
  - reflexivity.
  - reflexivity.
  - intros w'. reflexivity.
  - intros w'. reflexivity.
  - intros w'. exists Scenario.too_many_requests. split; reflexivity.
Defined.

(** ** The backoff schedule *)

Section Backoff.

Variable env : Env.

Lemma waits_request attempt t :
  waits (request_events env attempt ++ t) = sleeps_before attempt :: waits t.
Proof.
  unfold waits, request_events, before_request, sleeps_before.
  destruct (0 <? attempt)%nat; reflexivity.
Qed.

Lemma downloads_request attempt t :
  downloads (request_events env attempt ++ t) = S (downloads t).
Proof.
  unfold request_events, before_request.
  destruct (0 <? attempt)%nat; reflexivity.
Qed.

Lemma waits_quiet t1 t2 : forallb quiet t1 = true -> waits (t1 ++ t2) = waits t2.
Proof. apply waits_from_quiet. Qed.

(** The loop asks at most once per attempt, and the sleeps before its
    requests are those of the attempts, in order. *)
Lemma retry_loop_waits attempts w :
  exists t,
    trace (snd (retry_loop env attempts w)) = trace w ++ t /\
    waits t = take (downloads t) (map sleeps_before attempts) /\
    downloads t <= List.length attempts.
Proof.
  revert w. induction attempts as [|attempt rest IH]; intros w.
  - exists []. simpl. rewrite List.app_nil_r. auto.
  - cbn [retry_loop].
    destruct (attempt_body_events env attempt w) as (q & E & Q).
    assert (Hone : forall q', forallb quiet q' = true ->
              waits (request_events env attempt ++ q ++ q')
              = take (downloads (request_events env attempt ++ q ++ q'))
                     (map sleeps_before (attempt :: rest)) /\
              downloads (request_events env attempt ++ q ++ q')
              <= List.length (attempt :: rest)).
    { intros q' Q'. rewrite waits_request, downloads_request.
      assert (Hqq : forallb quiet (q ++ q') = true) by (rewrite forallb_app, Q, Q'; auto).
      rewrite (quiet_downloads _ Hqq). unfold waits.
      rewrite (waits_from_quiet_nil _ _ Hqq). simpl. split; [reflexivity|lia]. }
    destruct (attempt_body env attempt w) as [[b|e] w1]; cbn [snd] in E.
    + exists (request_events env attempt ++ q). cbn [snd]. split; [exact E|].
      specialize (Hone [] eq_refl). rewrite List.app_nil_r in Hone. exact Hone.
    + unfold on_exception. destruct (rate_limited e).
      * destruct (attempt <? max_retries - 1)%nat.
        -- unfold bind, print, emit. cbn [fs trace].
           destruct (IH (mkWorld (fs w1) (trace w1 ++ [Print (Text "Rate limited. Retrying...")])))
             as (t & Et & Wt & Dt).
           cbn [trace] in Et.
           exists (request_events env attempt ++ q ++ Print (Text "Rate limited. Retrying...") :: t).
           split; [|split].
           ++ rewrite Et, E. rewrite <- !List.app_assoc. reflexivity.
           ++ rewrite waits_request, downloads_request.
              replace (q ++ Print (Text "Rate limited. Retrying...") :: t)
                with ((q ++ [Print (Text "Rate limited. Retrying...")]) ++ t)
                by (rewrite <- List.app_assoc; reflexivity).
              rewrite waits_quiet by (rewrite forallb_app, Q; reflexivity).
              rewrite downloads_app, quiet_downloads
                by (rewrite forallb_app, Q; reflexivity).
              simpl. rewrite Wt. reflexivity.
           ++ rewrite downloads_request.
              replace (q ++ Print (Text "Rate limited. Retrying...") :: t)
                with ((q ++ [Print (Text "Rate limited. Retrying...")]) ++ t)
                by (rewrite <- List.app_assoc; reflexivity).
              rewrite downloads_app, quiet_downloads
                by (rewrite forallb_app, Q; reflexivity).
              simpl. lia.
        -- eexists (request_events env attempt ++ q ++ [_; _]).
           unfold bind, print, emit, ret. cbn [fs trace snd]. split.
           ++ rewrite E. rewrite <- !List.app_assoc. reflexivity.
           ++ apply Hone. reflexivity.
      * exists (request_events env attempt ++ q). cbn [raise snd]. split; [exact E|].
        specialize (Hone [] eq_refl). rewrite List.app_nil_r in Hone. exact Hone.
Qed.

Lemma only_quiet_authenticate_session : only quiet (authenticate_session env).
Proof.
  unfold authenticate_session.
  repeat (apply only_bind; [first [apply only_call | apply only_print]; reflexivity|]; intros _).
  apply only_print. reflexivity.
Qed.

Lemma download_from_kaggle_waits w :
  exists t,
    trace (snd (download_from_kaggle env w)) = trace w ++ t /\
    waits t = take (downloads t) (map sleeps_before (seq 0 max_retries)) /\
    downloads t <= max_retries.
Proof.
  unfold download_from_kaggle.
  destruct (KAGGLE_AVAILABLE env); cbn [negb].
  2:{ eexists [_]. split; [reflexivity|]. split; [reflexivity|].
      unfold max_retries, downloads. simpl. lia. }
  unfold bind at 1. unfold kaggle_json_exists.
  destruct (kaggle_json (fs w)); cbn [negb].
  2:{ destruct (credential_probe_error env) as [e|]; cbn [negb].
      - exists []. cbn [snd]. rewrite List.app_nil_r.
        split; [reflexivity|]. split; [reflexivity|].
        unfold max_retries, downloads. simpl. lia.
      - eexists [_; _; _]. unfold bind, print, emit, ret. cbn [fs trace snd].
        split; [rewrite <- !List.app_assoc; reflexivity|].
        split; [reflexivity|]. unfold max_retries, downloads. simpl. lia. }
  unfold try_except, kaggle_session, bind.
  destruct (only_quiet_authenticate_session w) as (t0 & E0 & Q0).
  destruct (authenticate_session env w) as [[[]|e] w0]; cbn [snd] in E0.
  - destruct (retry_loop_waits (seq 0 max_retries) w0) as (t & Et & Wt & Dt).
    rewrite List.length_seq in Dt.
    destruct (retry_loop env (seq 0 max_retries) w0) as [[b|e] w1]; cbn [snd] in Et.
    + exists (t0 ++ t). cbn [snd]. rewrite Et, E0, <- List.app_assoc.
      rewrite waits_quiet, downloads_app, (quiet_downloads _ Q0) by assumption. auto.
    + exists (t0 ++ t ++ [Print (Text ("Error downloading from Kaggle: " +:+ exn_msg e))]).
      unfold print, emit, ret. cbn [fs trace snd].
      rewrite Et, E0, <- !List.app_assoc. split; [reflexivity|].
      rewrite waits_quiet, !downloads_app, (quiet_downloads _ Q0) by assumption.
      cbn [downloads List.filter is_download List.length]. rewrite Nat.add_0_r.
      cbn [plus]. split; [|exact Dt].
      rewrite <- Wt. clear. unfold waits. generalize (@nil nat).
      induction t as [|ev t IH]; intros acc; [reflexivity|].
      destruct ev; simpl; auto. f_equal. apply IH.
  - exists (t0 ++ [Print (Text ("Error downloading from Kaggle: " +:+ exn_msg e))]).
    unfold print, emit, ret. cbn [fs trace snd]. rewrite E0, <- List.app_assoc.
    assert (Hq : forallb quiet (t0 ++ [Print (Text ("Error downloading from Kaggle: " +:+ exn_msg e))]) = true)
      by (rewrite forallb_app, Q0; reflexivity).
    split; [reflexivity|]. rewrite (quiet_downloads _ Hq). unfold waits.
    rewrite (waits_from_quiet_nil _ _ Hq). simpl. split; [reflexivity|lia].
Qed.

End Backoff.

(** C4.  In every run of [download_from_kaggle], whatever the outside does:
    no sleep precedes the first download request, and for 2 <= k <= 5 the
    sleeps between request k-1 and request k (counted from 1) are exactly
    one sleep of min(2^(k-1), 60) seconds.  There is no sixth request. *)
Theorem backoff_schedule (env : Env) (w : World) (k : nat) :
  let t := events (download_from_kaggle env) w in
  1 <= k <= downloads t ->
  k <= max_retries /\
  waits t !! (k - 1) = Some (if (k =? 1)%nat then [] else [Nat.min (2 ^ (k - 1)) 60]).
Proof.
  intros t Hk. subst t.
  destruct (download_from_kaggle_waits env w) as (t & Et & Wt & Dt).
  rewrite (events_of_extension _ _ _ Et) in *. rewrite Wt.
  unfold max_retries in *. split; [lia|].
  destruct (downloads t) as [|[|[|[|[|[|n]]]]]]; try lia;
    destruct k as [|[|[|[|[|[|k]]]]]]; try lia; reflexivity.
Qed.

Lemma backoff_schedule_witness :
  let env := Scenario.env_with true (Scenario.fail_with Scenario.too_many_requests) in
  let t := events (download_from_kaggle env) (Scenario.world_of true ∅) in
  5 <= max_retries /\ waits t !! 4 = Some [16].
Proof.
  apply (backoff_schedule
           (Scenario.env_with true (Scenario.fail_with Scenario.too_many_requests))
           (Scenario.world_of true ∅) 5).
  vm_compute. lia.
Defined.

(** ** Credentials and the outer handler *)

Section OuterHandler.

Variable env : Env.

Lemma download_from_kaggle_unavailable w :
  KAGGLE_AVAILABLE env = false ->
  download_from_kaggle env w
  = (Ret false,
     mkWorld (fs w)
       (trace w ++ [Print (Text "Kaggle API not available. Install with: pip install kaggle")])).
Proof. intros H. unfold download_from_kaggle. rewrite H. reflexivity. Qed.

Lemma download_from_kaggle_no_credential w :
  KAGGLE_AVAILABLE env = true ->
  kaggle_json (fs w) = false ->
  credential_probe_error env = None ->
  download_from_kaggle env w
  = (Ret false, mkWorld (fs w) (trace w ++ credential_missing_run env)).
Proof.
  intros Ha Hc Hp. unfold download_from_kaggle. rewrite Ha. cbn [negb].
  unfold bind at 1. unfold kaggle_json_exists. rewrite Hc, Hp. cbn [negb].
  unfold bind, print, emit, ret. cbn [fs trace].
  rewrite <- !List.app_assoc. reflexivity.
Qed.

(** The probe of the credential file runs before the [try]: what it raises
    leaves the function, with nothing done. *)
Lemma download_from_kaggle_probe_raises w e :
  KAGGLE_AVAILABLE env = true ->
  kaggle_json (fs w) = false ->
  credential_probe_error env = Some e ->
  download_from_kaggle env w = (Raise e, w).
Proof.
  intros Ha Hc Hp. unfold download_from_kaggle. rewrite Ha. cbn [negb].
  unfold bind at 1. unfold kaggle_json_exists. rewrite Hc, Hp. reflexivity.
Qed.

Lemma download_from_kaggle_session w :
  KAGGLE_AVAILABLE env = true ->
  kaggle_json (fs w) = true ->
  download_from_kaggle env w
  = try_except (kaggle_session env)
      (fun e => print (Text ("Error downloading from Kaggle: " +:+ exn_msg e)) ;; ret false) w.
Proof.
  intros Ha Hc. unfold download_from_kaggle. rewrite Ha. cbn [negb].
  unfold bind at 1. unfold kaggle_json_exists. rewrite Hc. reflexivity.
Qed.

Lemma download_from_kaggle_catches w e w1 :
  KAGGLE_AVAILABLE env = true ->
  kaggle_json (fs w) = true ->
  kaggle_session env w = (Raise e, w1) ->
  download_from_kaggle env w
  = (Ret false,
     mkWorld (fs w1) (trace w1 ++ [Print (Text ("Error downloading from Kaggle: " +:+ exn_msg e))])).
Proof.
  intros Ha Hc Hs. rewrite download_from_kaggle_session by assumption.
  unfold try_except. rewrite Hs. reflexivity.
Qed.

(** Once the probe of the credential file has answered, or was not needed,
    the function returns a boolean. *)
Lemma download_from_kaggle_returns w :
  KAGGLE_AVAILABLE env = false \/ kaggle_json (fs w) = true
    \/ credential_probe_error env = None ->
  exists b, fst (download_from_kaggle env w) = Ret b.
Proof.
  intros Hprobe. destruct (KAGGLE_AVAILABLE env) eqn:Ha.
  2:{ exists false. rewrite download_from_kaggle_unavailable by assumption. reflexivity. }
  destruct (kaggle_json (fs w)) eqn:Hc.
  - rewrite download_from_kaggle_session by assumption. unfold try_except.
    destruct (kaggle_session env w) as [[b|e] w1].
    + exists b. reflexivity.
    + exists false. reflexivity.
  - exists false. destruct Hprobe as [Hp|[Hp|Hp]]; try discriminate.
    rewrite download_from_kaggle_no_credential by assumption. reflexivity.
Qed.

(** Every run extends the history, and the filesystem changes only inside
    the session. *)
Lemma download_from_kaggle_early w :
  KAGGLE_AVAILABLE env = false \/ kaggle_json (fs w) = false ->
  exists t, snd (download_from_kaggle env w) = mkWorld (fs w) (trace w ++ t)
            /\ forallb local_event t = true.
Proof.
  intros Hoff. destruct (KAGGLE_AVAILABLE env) eqn:Ha.
  2:{ rewrite download_from_kaggle_unavailable by assumption. eexists [_]. auto. }
  destruct Hoff as [Hoff|Hc]; [discriminate|].
  destruct (credential_probe_error env) as [e|] eqn:Hp.
  - rewrite (download_from_kaggle_probe_raises w e) by assumption.
    exists []. rewrite List.app_nil_r. destruct w; auto.
  - rewrite download_from_kaggle_no_credential by assumption.
    exists (credential_missing_run env). auto.
Qed.

End OuterHandler.

(** C5, as the code has it.  When the probe of the credential file answers
    False, [download_from_kaggle] returns [False] and makes no network
    call: the client is not created, nothing is authenticated, nothing is
    requested, the filesystem is untouched.  With the client library
    importable it prints the notice, the instruction where to get
    [kaggle.json], and the directory expected to hold it; without the
    library the credential is never looked at and the install notice is
    all it prints. *)
Theorem missing_credential_short_circuits (env : Env) (w : World) :
  kaggle_json (fs w) = false ->
  credential_probe_error env = None ->
  fst (download_from_kaggle env w) = Ret false /\
  network_calls (events (download_from_kaggle env) w) = [] /\
  fs (snd (download_from_kaggle env w)) = fs w /\
  (KAGGLE_AVAILABLE env = true ->
   events (download_from_kaggle env) w = credential_missing_run env) /\
  (KAGGLE_AVAILABLE env = false ->
   events (download_from_kaggle env) w
   = [Print (Text "Kaggle API not available. Install with: pip install kaggle")]).
Proof.
  intros Hcred Hprobe. destruct (KAGGLE_AVAILABLE env) eqn:Ha.
  - pose proof (download_from_kaggle_no_credential env w Ha Hcred Hprobe) as E.
    assert (Ev : events (download_from_kaggle env) w = credential_missing_run env)
      by (apply events_of_extension; rewrite E; reflexivity).
    rewrite Ev, E. repeat split; try reflexivity. discriminate.
  - pose proof (download_from_kaggle_unavailable env w Ha) as E.
    erewrite events_of_extension by (rewrite E; reflexivity).
    rewrite E. repeat split; try reflexivity. discriminate.
Qed.

Lemma missing_credential_short_circuits_witness :
  let env := Scenario.env_with true Scenario.full_download in
  let w := Scenario.world_of false ∅ in
  fst (download_from_kaggle env w) = Ret false /\
  network_calls (events (download_from_kaggle env) w) = [] /\
  fs (snd (download_from_kaggle env w)) = fs w /\
  (true = true ->
   events (download_from_kaggle env) w = credential_missing_run env) /\
  (true = false ->
   events (download_from_kaggle env) w
   = [Print (Text "Kaggle API not available. Install with: pip install kaggle")]).
Proof.
  apply (missing_credential_short_circuits
           (Scenario.env_with true Scenario.full_download)
           (Scenario.world_of false ∅)).
  - reflexivity.
  - reflexivity.
Defined.

(** C5, as stated, fails: here the credential file is absent and so is the
    client library.  [download_from_kaggle] returns [False] without any
    network call, but all it prints is the install notice: neither the
    credential location nor the instructions. *)
Lemma credential_notice_needs_client_library :
  let env := Scenario.env_with false Scenario.full_download in
  let w := Scenario.world_of false ∅ in
  kaggle_json (fs w) = false /\
  credential_probe_error env = None /\
  fst (download_from_kaggle env w) = Ret false /\
  events (download_from_kaggle env) w
  = [Print (Text "Kaggle API not available. Install with: pip install kaggle")] /\
  ~ In (Print (Text ("  " +:+ kaggle_dir env))) (events (download_from_kaggle env) w) /\
  ~ In (Print (Text "Please download kaggle.json from https://www.kaggle.com/settings and place it in:"))
       (events (download_from_kaggle env) w).
Proof.
  cbv zeta. split; [reflexivity|]. split; [reflexivity|]. split; [reflexivity|].
  assert (E : events (download_from_kaggle (Scenario.env_with false Scenario.full_download))
                     (Scenario.world_of false ∅)
              = [Print (Text "Kaggle API not available. Install with: pip install kaggle")])
    by reflexivity.
  rewrite E. split; [reflexivity|].
  split; intros [H|[]]; discriminate H.
Qed.

(** C10, as the code has it.  Without the client library
    [download_from_kaggle] returns [False].  Every exception (an instance
    of [Exception], which is what the handlers name) raised inside the
    outer [try], by [KaggleApi()], by [authenticate()] or leaving the retry
    loop, is caught by the outermost handler, printed, and turned into
    [False]; so the function returns a boolean whenever the probe of the
    credential file has answered or was not needed.  That probe runs
    before the [try]: what it raises reaches the caller, with nothing
    printed. *)
Theorem exceptions_inside_try_become_false (env : Env) (w : World) :
  (KAGGLE_AVAILABLE env = false -> fst (download_from_kaggle env w) = Ret false) /\
  (KAGGLE_AVAILABLE env = false \/ kaggle_json (fs w) = true
     \/ credential_probe_error env = None ->
   exists b, fst (download_from_kaggle env w) = Ret b) /\
  (forall w0 e w1,
     KAGGLE_AVAILABLE env = true ->
     kaggle_json (fs w) = true ->
     authenticate_session env w = (Ret tt, w0) ->
     retry_loop env (seq 0 max_retries) w0 = (Raise e, w1) ->
     download_from_kaggle env w
     = (Ret false,
        mkWorld (fs w1)
          (trace w1 ++ [Print (Text ("Error downloading from Kaggle: " +:+ exn_msg e))]))) /\
  (forall e w1,
     KAGGLE_AVAILABLE env = true ->
     kaggle_json (fs w) = true ->
     authenticate_session env w = (Raise e, w1) ->
     download_from_kaggle env w
     = (Ret false,
        mkWorld (fs w1)
          (trace w1 ++ [Print (Text ("Error downloading from Kaggle: " +:+ exn_msg e))]))) /\
  (forall e,
     KAGGLE_AVAILABLE env = true ->
     kaggle_json (fs w) = false ->
     credential_probe_error env = Some e ->
     download_from_kaggle env w = (Raise e, w)).
Proof.
  split; [|split; [apply download_from_kaggle_returns|split; [|split]]].
  - intros Ha. rewrite download_from_kaggle_unavailable by assumption. reflexivity.
  - intros w0 e w1 Ha Hc H0 H1. apply download_from_kaggle_catches; try assumption.
    unfold kaggle_session. rewrite (bind_Ret _ _ _ _ _ H0). exact H1.
  - intros e w1 Ha Hc H0. apply download_from_kaggle_catches; try assumption.
    unfold kaggle_session. apply bind_Raise. exact H0.
  - intros e. apply download_from_kaggle_probe_raises.
Qed.

Lemma exceptions_inside_try_become_false_witness :
  let env := Scenario.env_with true (Scenario.fail_with Scenario.connection_error) in
  let w := Scenario.world_of true ∅ in
  (exists b, fst (download_from_kaggle env w) = Ret b) /\
  trace (snd (download_from_kaggle env w))
  = authenticated_events ++
    [Download competition "/repo/data"; Print (Text "Error downloading from Kaggle: Connection refused")].
Proof.
  intros env w.
  pose proof (exceptions_inside_try_become_false env w) as (_ & Hret & Hloop & _).
  split; [apply Hret; right; left; reflexivity|].
  rewrite (Hloop (mkWorld (fs w) authenticated_events) Scenario.connection_error
             (mkWorld (fs w) (authenticated_events ++ [Download competition "/repo/data"])));
    reflexivity.
Defined.

(** C10, as stated, fails: here the client library is there, but
    [~/.kaggle] may not be searched, and the probe of the credential file
    raises [PermissionError].  That happens before the outer [try]:
    [download_from_kaggle] returns no boolean, the exception reaches its
    caller. *)
Lemma credential_probe_error_propagates :
  let env := MoreScenarios.locked_home_env in
  let w := Scenario.world_of false ∅ in
  fst (download_from_kaggle env w) = Raise MoreScenarios.permission_denied /\
  events (download_from_kaggle env) w = [] /\
  ~ (exists b, fst (download_from_kaggle env w) = Ret b).
Proof.
  cbv zeta.
  assert (E : fst (download_from_kaggle MoreScenarios.locked_home_env
                     (Scenario.world_of false ∅))
              = Raise MoreScenarios.permission_denied) by reflexivity.
  split; [exact E|]. split; [reflexivity|].
  intros (b & Hb). rewrite E in Hb. discriminate.
Qed.

(** C1, as the code has it.  An exception of a download attempt whose
    message has neither "429" nor "Too Many Requests" is not retried: the
    inner handler re-raises it, the loop ends there, with no further event.
    It does not reach the caller of [download_from_kaggle]: the outermost
    handler catches it, prints it, and the function returns [False]. *)
Theorem non_rate_limit_error_not_retried (env : Env) (e : exn) :
  rate_limited e = false ->
  (forall attempt rest w w1,
     attempt_body env attempt w = (Raise e, w1) ->
     retry_loop env (attempt :: rest) w = (Raise e, w1)) /\
  (forall w w0 w1,
     KAGGLE_AVAILABLE env = true ->
     kaggle_json (fs w) = true ->
     authenticate_session env w = (Ret tt, w0) ->
     retry_loop env (seq 0 max_retries) w0 = (Raise e, w1) ->
     download_from_kaggle env w
     = (Ret false,
        mkWorld (fs w1)
          (trace w1 ++ [Print (Text ("Error downloading from Kaggle: " +:+ exn_msg e))]))).
Proof.
  intros Hrl. split.
  - intros attempt rest w w1 H. cbn [retry_loop]. rewrite H.
    unfold on_exception. rewrite Hrl. reflexivity.
  - intros w w0 w1 Ha Hc H0 H1. apply download_from_kaggle_catches; try assumption.
    unfold kaggle_session. rewrite (bind_Ret _ _ _ _ _ H0). exact H1.
Qed.

Lemma non_rate_limit_error_not_retried_witness :
  let env := Scenario.env_with true (Scenario.fail_with Scenario.connection_error) in
  let w := Scenario.world_of true ∅ in
  let w0 := mkWorld (fs w) authenticated_events in
  let w1 := mkWorld (fs w) (authenticated_events ++ [Download competition "/repo/data"]) in
  retry_loop env (seq 0 max_retries) w0 = (Raise Scenario.connection_error, w1) /\
  download_from_kaggle env w
  = (Ret false,
     mkWorld (fs w)
       (trace w1 ++ [Print (Text "Error downloading from Kaggle: Connection refused")])).
Proof.
  intros env w w0 w1.
  pose proof (non_rate_limit_error_not_retried env Scenario.connection_error eq_refl)
    as [Hloop Hfun].
  split.
  - apply (Hloop 0 (seq 1 4) w0 w1). reflexivity.
  - apply (Hfun w w0 w1); reflexivity.
Defined.

(** C1, as stated, fails: here the first download request raises
    "Connection refused", which is not a rate-limit error, and
    [download_from_kaggle] returns [False] instead of raising. *)
Lemma non_rate_limit_error_is_swallowed :
  let env := Scenario.env_with true (Scenario.fail_with Scenario.connection_error) in
  let w := Scenario.world_of true ∅ in
  let w0 := mkWorld (fs w) authenticated_events in
  rate_limited Scenario.connection_error = false /\
  authenticate_session env w = (Ret tt, w0) /\
  fst (attempt_body env 0 w0) = Raise Scenario.connection_error /\
  fst (download_from_kaggle env w) = Ret false /\
  fst (download_from_kaggle env w) <> Raise Scenario.connection_error.
Proof.
  cbv zeta. split; [reflexivity|]. split; [reflexivity|]. split; [reflexivity|].
  assert (H : fst (download_from_kaggle
                     (Scenario.env_with true (Scenario.fail_with Scenario.connection_error))
                     (Scenario.world_of true ∅)) = Ret false) by reflexivity.
  split; [exact H|]. rewrite H. discriminate.
Qed.

(** ** The verifier *)

Lemma length_filter_eqb {A} (P : A -> bool) (l : list A) :
  (List.length (List.filter P l) =? List.length l)%nat = forallb P l.
Proof.
  induction l as [|x l IH]; simpl; [reflexivity|].
  destruct (P x); simpl; [exact IH|].
  apply Nat.eqb_neq. pose proof (List.filter_length_le P l). lia.
Qed.

Lemma str_in_In x xs : str_in x xs = true <-> In x xs.
Proof.
  unfold str_in. rewrite existsb_exists. split.
  - intros (y & Hy & E). apply String.eqb_eq in E. subst. exact Hy.
  - intros H. exists x. split; [exact H|apply String.eqb_refl].
Qed.

Lemma exists_in_is_Some (d : gmap string node) f : exists_in d f = true <-> is_Some (d !! f).
Proof.
  unfold exists_in. destruct (d !! f) as [n|]; split; intros H;
    try reflexivity; try discriminate; [eexists; reflexivity|destruct H; discriminate].
Qed.

Section Verifier.

Variable env : Env.

Lemma all_found_iff d :
  all_found env d = true <-> forall f, In f (REQUIRED_FILES env) -> is_Some (d !! f).
Proof.
  unfold all_found. rewrite forallb_forall.
  split; intros H f Hf; apply exists_in_is_Some; auto.
Qed.

Lemma existing_all_exist d : forallb (exists_in d) (existing env d) = true.
Proof.
  apply forallb_forall. intros f Hf. unfold existing in Hf.
  apply List.filter_In in Hf. tauto.
Qed.

Lemma missing_eq d :
  missing env d = List.filter (fun f => negb (exists_in d f)) (REQUIRED_FILES env).
Proof.
  unfold missing. apply List.filter_ext_in. intros f Hf. f_equal.
  destruct (exists_in d f) eqn:E.
  - apply str_in_In. unfold existing. apply List.filter_In. auto.
  - destruct (str_in f (existing env d)) eqn:S; [|reflexivity].
    apply str_in_In in S. unfold existing in S. apply List.filter_In in S.
    destruct S as [_ S]. congruence.
Qed.

Lemma print_sizes_eq prefix names w :
  forallb (exists_in (data_dir (fs w))) names = true ->
  print_sizes env prefix names w
  = (Ret tt, mkWorld (fs w) (trace w ++ size_lines prefix (data_dir (fs w)) names)).
Proof.
  unfold print_sizes. revert w. induction names as [|f names IH]; intros w H.
  - simpl. unfold ret. rewrite List.app_nil_r. destruct w; reflexivity.
  - simpl in H. apply andb_prop in H as [Hf Hn].
    cbn [for_each size_lines flat_map]. unfold bind, stat, print, emit.
    unfold exists_in in Hf. destruct (data_dir (fs w) !! f) as [n|]; [|discriminate].
    cbn [fs trace]. rewrite IH by exact Hn. cbn [fs trace].
    rewrite <- List.app_assoc. reflexivity.
Qed.

(** What [check_existing_files] prints. *)
Lemma check_existing_files_eq w :
  let d := data_dir (fs w) in
  check_existing_files env w
  = (Ret (all_found env d),
     mkWorld (fs w)
       (trace w ++
        if all_found env d then
          Print (Text "✓ All data files already exist!") :: size_lines "  " d (REQUIRED_FILES env)
        else
          match existing env d with
          | [] => []
          | _ :: _ =>
              Print (Text ("Found " +:+ pretty (List.length (existing env d)) +:+ "/"
                           +:+ pretty (List.length (REQUIRED_FILES env)) +:+ " files:"))
              :: size_lines "  ✓ " d (existing env d)
              ++ [Print (Text ("Missing: " +:+ join ", " (missing env d)))]
          end)).
Proof.
  intros d. unfold check_existing_files. unfold bind at 1. cbn [get_fs]. fold d.
  cbv zeta. unfold existing at 1. rewrite length_filter_eqb. fold (all_found env d).
  destruct (all_found env d) eqn:Hall.
  - unfold bind, print, emit, ret. cbn [fs trace].
    rewrite print_sizes_eq by exact Hall. cbn [fs trace].
    rewrite <- List.app_assoc. reflexivity.
  - pose proof (existing_all_exist d) as Hex.
    destruct (existing env d) as [|f0 fs0] eqn:E.
    + unfold bind, ret. rewrite List.app_nil_r. destruct w; reflexivity.
    + unfold bind, print, emit, ret. cbn [fs trace].
      rewrite print_sizes_eq by exact Hex. cbn [fs trace].
      rewrite <- !List.app_assoc. reflexivity.
Qed.

End Verifier.

(** C2, as the code has it.  For every manifest and every data directory,
    [check_existing_files] returns [True] exactly when every name of the
    manifest is an entry of the directory, of whatever kind: the test is
    [exists()], so a directory of that name counts as present.  The check
    of line 79 decides the same, and [check_existing_files] never
    raises. *)
Theorem all_present_iff_every_name_exists (env : Env) (w : World) :
  (fst (check_existing_files env w) = Ret true <->
   forall f, In f (REQUIRED_FILES env) -> is_Some (data_dir (fs w) !! f)) /\
  (all_found env (data_dir (fs w)) = true <->
   forall f, In f (REQUIRED_FILES env) -> is_Some (data_dir (fs w) !! f)) /\
  fst (check_existing_files env w) = Ret (all_found env (data_dir (fs w))).
Proof.
  pose proof (check_existing_files_eq env w) as E. cbv zeta in E.
  rewrite E. cbn [fst]. split; [|split; [apply all_found_iff|reflexivity]].
  rewrite <- all_found_iff. split; [intros [= ->]; reflexivity|intros ->; reflexivity].
Qed.

(** C2, as stated, fails: [data_train.hdf5] is a directory here, not a
    regular file, and the check is true. *)
Lemma directory_counts_as_present :
  let env := Scenario.env_with true Scenario.succeed in
  let w := Scenario.world_of true Scenario.train_is_a_directory in
  fst (check_existing_files env w) = Ret true /\
  all_found env (data_dir (fs w)) = true /\
  ~ (forall f, In f (REQUIRED_FILES env) ->
       exists n, data_dir (fs w) !! f = Some n /\ is_file n = true).
Proof.
  cbv zeta. split; [reflexivity|]. split; [reflexivity|].
  intros H. destruct (H "data_train.hdf5") as (n & Hn & Hf); [left; reflexivity|].
  vm_compute in Hn. injection Hn as <-. discriminate.
Qed.

(** C8.  For every manifest and every data directory, the list [missing] of
    [check_existing_files] holds exactly the manifest entries that do not
    exist, in manifest order; with the manifest a.bin, b.bin, c.bin and
    only a.bin (1.5 MB) in the directory it is [b.bin; c.bin], the check is
    false, and the function prints "Missing: b.bin, c.bin" last. *)
Theorem missing_in_manifest_order :
  (forall (env : Env) (d : gmap string node),
     missing env d = List.filter (fun f => negb (exists_in d f)) (REQUIRED_FILES env)) /\
  missing Scenario.abc_env Scenario.only_a_bin = ["b.bin"; "c.bin"] /\
  all_found Scenario.abc_env Scenario.only_a_bin = false /\
  last (events (check_existing_files Scenario.abc_env)
               (Scenario.world_of true Scenario.only_a_bin))
  = Some (Print (Text "Missing: b.bin, c.bin")).
Proof.
  split; [apply missing_eq|]. repeat split; reflexivity.
Qed.

(** ** An incomplete download *)

Section Incomplete.

Variable env : Env.
Hypothesis scandir_perm : forall d, scandir env d ≡ₚ (map_to_list d).*1.

Lemma report_loop_eq names w :
  for_each names (fun f =>
    isf <- path_is_file f ;;
    if isf then n <- stat env f ;; print (FileSize "  " f (st_size n)) else ret tt) w
  = (Ret tt, mkWorld (fs w) (trace w ++ file_report (data_dir (fs w)) names)).
Proof.
  revert w. induction names as [|f names IH]; intros w.
  - simpl. unfold ret. rewrite List.app_nil_r. destruct w; reflexivity.
  - cbn [for_each file_report flat_map]. unfold bind at 1 2. unfold path_is_file.
    destruct (data_dir (fs w) !! f) as [n|] eqn:E.
    + destruct (is_file n).
      * unfold bind, stat, print, emit. rewrite E. cbn [fs trace].
        rewrite IH. cbn [fs trace]. rewrite <- List.app_assoc. reflexivity.
      * unfold ret. rewrite IH. reflexivity.
    + unfold ret. rewrite IH. reflexivity.
Qed.

Lemma list_data_dir_eq w :
  list_data_dir env w
  = (Ret tt,
     mkWorld (fs w)
       (trace w ++ Print (Text (LF +:+ "Files in data directory:"))
                   :: file_report (data_dir (fs w)) (sorted (scandir env (data_dir (fs w)))))).
Proof.
  unfold list_data_dir. unfold bind at 1 2. unfold print, emit, glob_all. cbn [fs trace].
  rewrite report_loop_eq. cbn [fs trace]. rewrite <- List.app_assoc. reflexivity.
Qed.

Lemma verify_incomplete w :
  all_found env (data_dir (fs w)) = false ->
  verify env w
  = (Ret false,
     mkWorld (fs w)
       (trace w ++ Print (Text (LF +:+ "Files in data directory:"))
                   :: file_report (data_dir (fs w)) (sorted (scandir env (data_dir (fs w))))
                   ++ [Print (Text (LF +:+ "Some required files are missing after download"))])).
Proof.
  intros H. unfold verify. unfold bind at 1. cbn [get_fs]. rewrite H.
  unfold bind at 1. rewrite list_data_dir_eq. unfold bind, print, emit, ret.
  cbn [fs trace]. rewrite <- List.app_assoc. reflexivity.
Qed.

Lemma verify_complete w :
  all_found env (data_dir (fs w)) = true ->
  verify env w
  = (Ret true,
     mkWorld (fs w) (trace w ++ [Print (Text "✓ All data files downloaded successfully!")])).
Proof. intros H. unfold verify. unfold bind at 1. cbn [get_fs]. rewrite H. reflexivity. Qed.

(** The report names every regular file of the directory, with its size,
    and nothing else. *)
Lemma file_report_spec (d : gmap string node) ev :
  In ev (file_report d (sorted (scandir env d))) <->
  exists name n, d !! name = Some n /\ is_file n = true
                 /\ ev = Print (FileSize "  " name (st_size n)).
Proof.
  unfold file_report. rewrite in_flat_map. split.
  - intros (f & _ & Hev). destruct (d !! f) as [n|] eqn:E; [|destruct Hev].
    destruct (is_file n) eqn:F; [|destruct Hev].
    destruct Hev as [<-|[]]. eauto.
  - intros (name & n & E & F & ->). exists name. rewrite E, F. split; [|left; reflexivity].
    apply list_elem_of_In. unfold sorted. rewrite merge_sort_Permutation, scandir_perm.
    apply list_elem_of_fmap. exists (name, n). split; [reflexivity|].
    apply elem_of_map_to_list. exact E.
Qed.

(** An attempt whose request and extraction raise nothing ends the loop
    with the verdict of the verification, whatever attempts remain. *)
Lemma retry_loop_verdict attempt rest w w1 w2 :
  request env attempt w = (Ret tt, w1) ->
  extract_zips env w1 = (Ret tt, w2) ->
  exists b w3, verify env w2 = (Ret b, w3) /\
               retry_loop env (attempt :: rest) w = (Ret b, w3).
Proof.
  intros H1 H2. cbn [retry_loop]. unfold attempt_body.
  rewrite (bind_Ret _ _ _ _ _ H1), (bind_Ret _ _ _ _ _ H2).
  destruct (all_found env (data_dir (fs w2))) eqn:Hall.
  - rewrite verify_complete by exact Hall. eauto.
  - rewrite verify_incomplete by exact Hall. eauto.
Qed.

End Incomplete.

(** C6.  When the first download request raises nothing, the archives are
    extracted, and the directory then lacks some manifest file,
    [download_from_kaggle] makes that one request only: it lists the
    regular files of the directory with their sizes, says that files are
    missing, and returns [False]. *)
Theorem incomplete_download_not_retried (env : Env) (w w0 w1 w2 : World) :
  (forall d, scandir env d ≡ₚ (map_to_list d).*1) ->
  KAGGLE_AVAILABLE env = true ->
  kaggle_json (fs w) = true ->
  authenticate_session env w = (Ret tt, w0) ->
  request env 0 w0 = (Ret tt, w1) ->
  extract_zips env w1 = (Ret tt, w2) ->
  all_found env (data_dir (fs w2)) = false ->
  exists report,
    download_from_kaggle env w
    = (Ret false,
       mkWorld (fs w2)
         (trace w2 ++ Print (Text (LF +:+ "Files in data directory:")) :: report
                   ++ [Print (Text (LF +:+ "Some required files are missing after download"))])) /\
    (forall ev, In ev report <->
       exists name n, data_dir (fs w2) !! name = Some n /\ is_file n = true
                      /\ ev = Print (FileSize "  " name (st_size n))) /\
    downloads (events (download_from_kaggle env) w) = 1.
Proof.
  intros Hscan Ha Hc H0 H1 H2 Hall.
  exists (file_report (data_dir (fs w2)) (sorted (scandir env (data_dir (fs w2))))).
  assert (E : download_from_kaggle env w
              = (Ret false,
                 mkWorld (fs w2)
                   (trace w2 ++ Print (Text (LF +:+ "Files in data directory:"))
                      :: file_report (data_dir (fs w2)) (sorted (scandir env (data_dir (fs w2))))
                      ++ [Print (Text (LF +:+ "Some required files are missing after download"))]))).
  { rewrite download_from_kaggle_session by assumption.
    unfold try_except, kaggle_session. rewrite (bind_Ret _ _ _ _ _ H0).
    cbn [seq max_retries retry_loop]. unfold attempt_body.
    rewrite (bind_Ret _ _ _ _ _ H1), (bind_Ret _ _ _ _ _ H2).
    rewrite verify_incomplete by assumption. reflexivity. }
  split; [exact E|]. split; [apply file_report_spec; exact Hscan|].
  destruct (only_quiet_authenticate_session env w) as (t0 & E0 & Q0).
  rewrite H0 in E0. cbn [snd] in E0.
  pose proof (request_eq env 0 w0) as R. rewrite H1 in R.
  injection R as _ R. apply (f_equal trace) in R. cbn [trace] in R.
  destruct (only_extract_zips env quiet (fun _ => eq_refl) (fun _ => eq_refl)
              (fun _ => eq_refl) w1)
    as (t2 & E2 & Q2).
  rewrite H2 in E2. cbn [snd] in E2.
  erewrite events_of_extension.
  2:{ rewrite E. cbn [snd trace]. rewrite E2, R, E0, <- !List.app_assoc. reflexivity. }
  rewrite downloads_app, (quiet_downloads _ Q0), downloads_request, downloads_app,
    (quiet_downloads _ Q2). cbn [plus]. f_equal. apply quiet_downloads.
  cbn [forallb quiet]. rewrite forallb_app. cbn [forallb quiet]. rewrite andb_true_r.
  apply forallb_forall. intros ev Hev. unfold file_report in Hev.
  apply in_flat_map in Hev as (f & _ & Hev).
  destruct (data_dir (fs w2) !! f) as [n|]; [|destruct Hev].
  destruct (is_file n); [|destruct Hev]. destruct Hev as [<-|[]]. reflexivity.
Qed.

Lemma incomplete_download_not_retried_witness :
  let env := Scenario.env_with true Scenario.partial_download in
  let w := Scenario.world_of true ∅ in
  exists report,
    download_from_kaggle env w
    = (Ret false,
       mkWorld (mkFS true true true Scenario.two_of_three)
         ((authenticated_events ++ [Download competition "/repo/data"])
            ++ Print (Text (LF +:+ "Files in data directory:")) :: report
            ++ [Print (Text (LF +:+ "Some required files are missing after download"))])) /\
    (forall ev, In ev report <->
       exists name n, Scenario.two_of_three !! name = Some n /\ is_file n = true
                      /\ ev = Print (FileSize "  " name (st_size n))) /\
    downloads (events (download_from_kaggle env) w) = 1.
Proof.
  intros env w.
  apply (incomplete_download_not_retried env w
           (mkWorld (fs w) authenticated_events)
           (mkWorld (mkFS true true true Scenario.two_of_three)
                    (authenticated_events ++ [Download competition "/repo/data"]))
           (mkWorld (mkFS true true true Scenario.two_of_three)
                    (authenticated_events ++ [Download competition "/repo/data"]))).
  - intros d. reflexivity.
  - reflexivity.
  - reflexivity.
  - reflexivity.
  - reflexivity.
  - reflexivity.
  - reflexivity.
Defined.

(** ** main *)

Section Main.

Variable env : Env.

Lemma verify_true w w' :
  verify env w = (Ret true, w') -> all_found env (data_dir (fs w')) = true.
Proof.
  destruct (all_found env (data_dir (fs w))) eqn:H.
  - rewrite verify_complete by exact H. intros [= <-]. exact H.
  - rewrite verify_incomplete by exact H. discriminate.
Qed.

Lemma attempt_body_true attempt w w' :
  attempt_body env attempt w = (Ret true, w') -> all_found env (data_dir (fs w')) = true.
Proof.
  unfold attempt_body. intros H.
  apply bind_inv_Ret in H as ([] & w1 & _ & H).
  apply bind_inv_Ret in H as ([] & w2 & _ & H).
  eapply verify_true. exact H.
Qed.

Lemma retry_loop_true attempts w w' :
  retry_loop env attempts w = (Ret true, w') -> all_found env (data_dir (fs w')) = true.
Proof.
  revert w. induction attempts as [|attempt rest IH]; intros w; cbn [retry_loop].
  - discriminate.
  - destruct (attempt_body env attempt w) as [[b|e] w1] eqn:E.
    + intros [= -> ->]. eapply attempt_body_true. exact E.
    + unfold on_exception. destruct (rate_limited e); [|discriminate].
      destruct (attempt <? max_retries - 1)%nat.
      * unfold bind at 1. unfold print, emit. apply IH.
      * discriminate.
Qed.

Lemma download_from_kaggle_true w w' :
  download_from_kaggle env w = (Ret true, w') -> all_found env (data_dir (fs w')) = true.
Proof.
  destruct (KAGGLE_AVAILABLE env) eqn:Ha.
  2:{ rewrite download_from_kaggle_unavailable by exact Ha. discriminate. }
  destruct (kaggle_json (fs w)) eqn:Hc.
  2:{ destruct (credential_probe_error env) as [e|] eqn:Hp.
      - rewrite (download_from_kaggle_probe_raises env w e) by assumption. discriminate.
      - rewrite download_from_kaggle_no_credential by assumption. discriminate. }
  rewrite download_from_kaggle_session by assumption. unfold try_except.
  destruct (kaggle_session env w) as [[b|e] w1] eqn:E; [|discriminate].
  intros [= -> ->]. unfold kaggle_session in E.
  apply bind_inv_Ret in E as ([] & w0 & _ & E). eapply retry_loop_true. exact E.
Qed.

Lemma download_from_dryad_false w : fst (download_from_dryad env w) = Ret false.
Proof. unfold download_from_dryad. destruct (REQUESTS_AVAILABLE env); reflexivity. Qed.

Lemma size_lines_local prefix (d : gmap string node) names :
  forallb local_event (size_lines prefix d names) = true.
Proof.
  induction names as [|f names IH]; [reflexivity|].
  cbn [size_lines flat_map]. destruct (d !! f); [cbn; exact IH|exact IH].
Qed.

(** With every manifest entry in place, [main] prints and returns 0. *)
Lemma main_skips_fetch w :
  all_found env (data_dir (fs w)) = true ->
  exists t, main env w = (Ret 0%Z, mkWorld (fs w) (trace w ++ t))
            /\ forallb local_event t = true.
Proof.
  intros Hall. unfold main. unfold bind at 1 2 3. unfold print, emit. cbn [fs trace].
  unfold bind at 1. rewrite check_existing_files_eq. cbv zeta. cbn [fs trace].
  rewrite Hall. eexists. split.
  - unfold ret. rewrite <- !List.app_assoc. reflexivity.
  - cbn [List.app forallb local_event network_event negb andb].
    apply size_lines_local.
Qed.

(** [main] returns 0 only when every manifest entry is in place at the
    end. *)
Lemma main_zero_all_found w w1 :
  main env w = (Ret 0%Z, w1) -> all_found env (data_dir (fs w1)) = true.
Proof.
  unfold main. unfold bind at 1 2 3. unfold print, emit. cbn [fs trace].
  unfold bind at 1. rewrite check_existing_files_eq. cbv zeta. cbn [fs trace].
  destruct (all_found env (data_dir (fs w))) eqn:Hall.
  - unfold ret. intros [= <-]. exact Hall.
  - unfold bind at 1 2 3. cbn [fs trace]. unfold bind at 1.
    match goal with |- context [download_from_kaggle env ?w'] =>
      destruct (download_from_kaggle env w') as [[[]|e] wk] eqn:K end.
    + unfold ret. intros [= <-]. eapply download_from_kaggle_true. exact K.
    + unfold bind at 1. cbn [fs trace]. unfold bind at 1.
      match goal with |- context [download_from_dryad env ?w'] =>
        pose proof (download_from_dryad_false w') as D;
        destruct (download_from_dryad env w') as [[[]|e] wd] end;
        cbn [fst] in D; try discriminate D.
      unfold bind, ret. cbn [fs trace]. discriminate.
    + discriminate.
Qed.

End Main.

(** C9.  When every manifest entry is already in the data directory, [main]
    returns 0 without creating the client, authenticating or requesting a
    download, whether or not the client library and the credential are
    there, and leaves the filesystem as it was.  Hence a run that follows a
    run which returned 0 makes no network call and returns 0 again. *)
Theorem present_artifacts_skip_fetch (env : Env) :
  (forall w,
     all_found env (data_dir (fs w)) = true ->
     fst (main env w) = Ret 0%Z /\
     fst (script env w) = 0%Z /\
     network_calls (events (main env) w) = [] /\
     fs (snd (main env w)) = fs w) /\
  (forall w w1,
     main env w = (Ret 0%Z, w1) ->
     fst (main env w1) = Ret 0%Z /\
     fst (script env w1) = 0%Z /\
     network_calls (events (main env) w1) = [] /\
     fs (snd (main env w1)) = fs w1).
Proof.
  assert (Hskip : forall w, all_found env (data_dir (fs w)) = true ->
            fst (main env w) = Ret 0%Z /\
            fst (script env w) = 0%Z /\
            network_calls (events (main env) w) = [] /\
            fs (snd (main env w)) = fs w).
  { intros w Hall. destruct (main_skips_fetch env w Hall) as (t & E & L).
    erewrite events_of_extension by (rewrite E; reflexivity).
    unfold script. rewrite E. repeat split. apply local_network_calls. exact L. }
  split; [exact Hskip|].
  intros w w1 H. apply Hskip. eapply main_zero_all_found. exact H.
Qed.

Lemma present_artifacts_skip_fetch_witness :
  let env := Scenario.env_with true Scenario.full_download in
  let w := Scenario.world_of true ∅ in
  (fst (main env (Scenario.world_of true Scenario.complete_dir)) = Ret 0%Z /\
   fst (script env (Scenario.world_of true Scenario.complete_dir)) = 0%Z /\
   network_calls (events (main env) (Scenario.world_of true Scenario.complete_dir)) = [] /\
   fs (snd (main env (Scenario.world_of true Scenario.complete_dir)))
   = fs (Scenario.world_of true Scenario.complete_dir)) /\
  (fst (main env (snd (main env w))) = Ret 0%Z /\
   fst (script env (snd (main env w))) = 0%Z /\
   network_calls (events (main env) (snd (main env w))) = [] /\
   fs (snd (main env (snd (main env w)))) = fs (snd (main env w))).
Proof.
  intros env w.
  pose proof (present_artifacts_skip_fetch env) as [Hskip Hagain].
  split.
  - apply Hskip. reflexivity.
  - apply (Hagain w). reflexivity.
Defined.

End DownloadFacts.

(** ** run_complete_pipeline.py: the exit code *)

Module PipelineFacts.
Import CompletePipeline.

Section Runner.

Variable env : Env.

(** Step 0 leaves the run with code 1 only. *)
Lemma step0_exit_code w code w1 : step0 env w = (Some code, w1) -> code = 1%Z.
Proof.
  unfold step0. cbv zeta.
  destruct (download_script _).
  - destruct (subprocess_run _ _ _) as [returncode w2].
    destruct (negb (returncode =? 0)%Z); [|discriminate].
    destruct (negb (all_exist _)); [|discriminate].
    intros [= <- _]. reflexivity.
  - destruct (negb (all_exist _)); [|discriminate].
    intros [= <- _]. reflexivity.
Qed.

Lemma step1_found w :
  pipeline_script (fs w) = true ->
  step1 env w
  = (fst (run_full_pipeline env (pipeline_start w)),
     mkWorld (snd (run_full_pipeline env (pipeline_start w))) (trace (pipeline_start w))).
Proof. intros H. unfold step1, say. cbn [fs trace]. rewrite H. reflexivity. Qed.

Lemma step1_not_found w :
  pipeline_script (fs w) = false -> fst (step1 env w) = 1%Z.
Proof. intros H. unfold step1, say. cbn [fs trace]. rewrite H. reflexivity. Qed.

End Runner.

Lemma exit_status_small n : (0 <= n < 256)%Z -> exit_status n = n.
Proof. intros H. unfold exit_status. apply Z.mod_small. exact H. Qed.

(** A child killed by signal 9 has [returncode] -9; passing it to
    [sys.exit] yields status 247.  Such a [returncode] is not an exit
    code of the child. *)
Example exit_status_of_signal : exit_status (-9) = 247%Z.
Proof. reflexivity. Qed.

(** C7.  When step 0 lets the run proceed and [run_full_pipeline.py] is
    found, the runner passes the [returncode] n of the pipeline process to
    [sys.exit] unchanged, and for an exit code n (0 <= n < 256) its own
    exit status is n.  When the pipeline script is not found after step 0,
    the runner exits with code 1. *)
Theorem pipeline_exit_code_passthrough (env : Env) (w : World) (n : Z) :
  (forall w1,
     step0 env w = (None, w1) ->
     pipeline_script (fs w1) = true ->
     fst (run_full_pipeline env (pipeline_start w1)) = n ->
     fst (run_complete_pipeline env w) = n /\
     ((0 <= n < 256)%Z -> exit_status (fst (run_complete_pipeline env w)) = n)) /\
  (pipeline_script (fs (snd (step0 env w))) = false ->
   fst (run_complete_pipeline env w) = 1%Z /\
   exit_status (fst (run_complete_pipeline env w)) = 1%Z).
Proof.
  unfold run_complete_pipeline. split.
  - intros w1 H0 Hp Hn. rewrite H0, step1_found by exact Hp. cbn [fst]. rewrite Hn.
    split; [reflexivity|apply exit_status_small].
  - destruct (step0 env w) as [[code|] w1] eqn:H0; cbn [snd fst].
    + intros _. rewrite (step0_exit_code env w code w1 H0). split; reflexivity.
    + intros Hp. rewrite step1_not_found by exact Hp. split; reflexivity.
Qed.

Lemma pipeline_exit_code_passthrough_witness :
  let env7 := Scenario.runner_env Scenario.download_succeeds (Scenario.exits_with 7) in
  (fst (run_complete_pipeline env7 (Scenario.runner_world true ∅)) = 7%Z /\
   exit_status (fst (run_complete_pipeline env7 (Scenario.runner_world true ∅))) = 7%Z) /\
  (fst (run_complete_pipeline env7 (Scenario.runner_world false ∅)) = 1%Z /\
   exit_status (fst (run_complete_pipeline env7 (Scenario.runner_world false ∅))) = 1%Z).
Proof.
  intros env7. split.
  - pose proof (pipeline_exit_code_passthrough env7 (Scenario.runner_world true ∅) 7)
      as [H _].
    destruct (H (snd (step0 env7 (Scenario.runner_world true ∅))) eq_refl eq_refl eq_refl)
      as [Hcode Hstatus].
    split; [exact Hcode|apply Hstatus; lia].
  - pose proof (pipeline_exit_code_passthrough env7 (Scenario.runner_world false ∅) 7)
      as [_ H].
    exact (H eq_refl).
Defined.

End PipelineFacts.

(** ** Further properties of download_data.py *)

Module FetchProperties.
Import DownloadData DownloadFacts.

(** *** The backoff in numbers *)

Lemma sleeps_app t1 t2 : sleeps (t1 ++ t2) = sleeps t1 ++ sleeps t2.
Proof. unfold sleeps. apply flat_map_app. Qed.

Lemma quiet_sleeps t : forallb quiet t = true -> sleeps t = [].
Proof.
  unfold sleeps. induction t as [|ev t IH]; simpl; [reflexivity|].
  intros [Hq Ht]%andb_prop. destruct ev; simpl in *; try discriminate; auto.
Qed.

Lemma sleeps_request env attempt :
  sleeps (request_events env attempt) = sleeps_before attempt.
Proof.
  unfold request_events, before_request, sleeps_before.
  destruct (0 <? attempt)%nat; reflexivity.
Qed.

Section Sleeps.

Variable env : Env.

Lemma retry_loop_sleeps attempts w :
  exists t,
    trace (snd (retry_loop env attempts w)) = trace w ++ t /\
    sleeps t = concat (take (downloads t) (map sleeps_before attempts)).
Proof.
  revert w. induction attempts as [|attempt rest IH]; intros w.
  - exists []. simpl. rewrite List.app_nil_r. auto.
  - cbn [retry_loop].
    destruct (attempt_body_events env attempt w) as (q & E & Q).
    assert (Hone : forall q', forallb quiet q' = true ->
              sleeps (request_events env attempt ++ q ++ q')
              = concat (take (downloads (request_events env attempt ++ q ++ q'))
                             (map sleeps_before (attempt :: rest)))).
    { intros q' Q'.
      assert (Hqq : forallb quiet (q ++ q') = true) by (rewrite forallb_app, Q, Q'; auto).
      rewrite downloads_request, (quiet_downloads _ Hqq), sleeps_app, sleeps_request,
        (quiet_sleeps _ Hqq). simpl. reflexivity. }
    destruct (attempt_body env attempt w) as [[b|e] w1]; cbn [snd] in E.
    + exists (request_events env attempt ++ q). cbn [snd]. split; [exact E|].
      specialize (Hone [] eq_refl). rewrite List.app_nil_r in Hone. exact Hone.
    + unfold on_exception. destruct (rate_limited e).
      * destruct (attempt <? max_retries - 1)%nat.
        -- unfold bind, print, emit. cbn [fs trace].
           destruct (IH (mkWorld (fs w1) (trace w1 ++ [Print (Text "Rate limited. Retrying...")])))
             as (t & Et & St).
           cbn [trace] in Et.
           exists (request_events env attempt ++ (q ++ [Print (Text "Rate limited. Retrying...")]) ++ t).
           assert (Hq1 : forallb quiet (q ++ [Print (Text "Rate limited. Retrying...")]) = true)
             by (rewrite forallb_app, Q; reflexivity).
           split.
           ++ rewrite Et, E. rewrite <- !List.app_assoc. reflexivity.
           ++ rewrite downloads_request, downloads_app, (quiet_downloads _ Hq1),
                sleeps_app, sleeps_request, sleeps_app, (quiet_sleeps _ Hq1), St.
              simpl. reflexivity.
        -- eexists (request_events env attempt ++ q ++ [_; _]).
           unfold bind, print, emit, ret. cbn [fs trace snd]. split.
           ++ rewrite E. rewrite <- !List.app_assoc. reflexivity.
           ++ apply Hone. reflexivity.
      * exists (request_events env attempt ++ q). cbn [raise snd]. split; [exact E|].
        specialize (Hone [] eq_refl). rewrite List.app_nil_r in Hone. exact Hone.
Qed.

Lemma download_from_kaggle_sleeps w :
  exists t,
    trace (snd (download_from_kaggle env w)) = trace w ++ t /\
    sleeps t = concat (take (downloads t) (map sleeps_before (seq 0 max_retries))).
Proof.
  destruct (KAGGLE_AVAILABLE env) eqn:Ha.
  2:{ rewrite download_from_kaggle_unavailable by exact Ha. eexists [_]. split; reflexivity. }
  destruct (kaggle_json (fs w)) eqn:Hc.
  2:{ destruct (credential_probe_error env) as [e|] eqn:Hp.
      - rewrite (download_from_kaggle_probe_raises env w e) by assumption.
        exists []. cbn [snd]. rewrite List.app_nil_r. split; reflexivity.
      - rewrite download_from_kaggle_no_credential by assumption.
        exists (credential_missing_run env). split; reflexivity. }
  rewrite download_from_kaggle_session by assumption.
  unfold try_except, kaggle_session, bind.
  destruct (only_quiet_authenticate_session env w) as (t0 & E0 & Q0).
  destruct (authenticate_session env w) as [[[]|e] w0]; cbn [snd] in E0.
  - destruct (retry_loop_sleeps (seq 0 max_retries) w0) as (t & Et & St).
    destruct (retry_loop env (seq 0 max_retries) w0) as [[b|e] w1]; cbn [snd] in Et.
    + exists (t0 ++ t). cbn [snd]. rewrite Et, E0, <- List.app_assoc.
      rewrite sleeps_app, downloads_app, (quiet_downloads _ Q0), (quiet_sleeps _ Q0). auto.
    + exists (t0 ++ t ++ [Print (Text ("Error downloading from Kaggle: " +:+ exn_msg e))]).
      unfold print, emit, ret. cbn [fs trace snd].
      rewrite Et, E0, <- !List.app_assoc. split; [reflexivity|].
      rewrite !sleeps_app, !downloads_app, (quiet_downloads _ Q0), (quiet_sleeps _ Q0).
      cbn. rewrite List.app_nil_r, Nat.add_0_r. exact St.
  - exists (t0 ++ [Print (Text ("Error downloading from Kaggle: " +:+ exn_msg e))]).
    unfold print, emit, ret. cbn [fs trace snd]. rewrite E0, <- List.app_assoc.
    assert (Hq : forallb quiet (t0 ++ [Print (Text ("Error downloading from Kaggle: " +:+ exn_msg e))]) = true)
      by (rewrite forallb_app, Q0; reflexivity).
    split; [reflexivity|]. rewrite (quiet_downloads _ Hq), (quiet_sleeps _ Hq). reflexivity.
Qed.

End Sleeps.

(** X1.  [min(2 ** attempt, 60)] never exceeds 60; it is the plain power of
    two up to attempt 5 and the cap of 60 from attempt 6 on. *)
Theorem wait_time_bounds (attempt : nat) :
  wait_time attempt <= 60 /\
  (attempt <= 5 -> wait_time attempt = 2 ^ attempt) /\
  (6 <= attempt -> wait_time attempt = 60).
Proof.
  unfold wait_time. split; [apply Nat.le_min_r|]. split.
  - intros H. apply Nat.min_l.
    transitivity (2 ^ 5); [apply Nat.pow_le_mono_r; lia|]. cbn. lia.
  - intros H. apply Nat.min_r.
    transitivity (2 ^ 6); [cbn; lia|apply Nat.pow_le_mono_r; lia].
Qed.

Lemma wait_time_bounds_witness :
  wait_time 5 = 32 /\ wait_time 6 = 60.
Proof.
  split.
  - apply (proj1 (proj2 (wait_time_bounds 5))). lia.
  - apply (proj2 (proj2 (wait_time_bounds 6))). lia.
Defined.

(** X2.  Whatever the outside does, one call of [download_from_kaggle]
    sleeps at most 2 + 4 + 8 + 16 = 30 seconds in total, each sleep is one
    of 2, 4, 8, 16 seconds, and so the cap of 60 seconds is never what it
    sleeps. *)
Theorem sleep_budget (env : Env) (w : World) :
  let t := events (download_from_kaggle env) w in
  total_sleep t <= 30 /\
  (forall s, In s (sleeps t) -> s = 2 \/ s = 4 \/ s = 8 \/ s = 16).
Proof.
  intros t. subst t. unfold total_sleep.
  destruct (download_from_kaggle_sleeps env w) as (t & Et & St).
  rewrite (events_of_extension _ _ _ Et), St.
  destruct (downloads t) as [|[|[|[|[|[|n]]]]]]; vm_compute; (split; [lia|]); intros s Hs;
    repeat (destruct Hs as [<-|Hs]; [tauto|]); destruct Hs.
Qed.

Lemma sleep_budget_witness :
  let env := Scenario.env_with true (Scenario.fail_with Scenario.too_many_requests) in
  let t := events (download_from_kaggle env) (Scenario.world_of true ∅) in
  total_sleep t <= 30 /\ sleeps t = [2; 4; 8; 16].
Proof.
  intros env t. split; [|reflexivity].
  apply (sleep_budget env (Scenario.world_of true ∅)).
Defined.

(** *** When the fetch succeeds, and when it does not even start *)

Section Outcomes.

Variable env : Env.

Lemma attempt_body_success attempt w w' :
  attempt_body env attempt w = (Ret true, w') ->
  exists q, trace w' = trace w ++ request_events env attempt ++ q ++ [success_line]
            /\ forallb quiet q = true
            /\ all_found env (data_dir (fs w')) = true.
Proof.
  unfold attempt_body. intros H.
  apply bind_inv_Ret in H as ([] & w1 & H1 & H).
  apply bind_inv_Ret in H as ([] & w2 & H2 & H).
  pose proof (request_eq env attempt w) as R. rewrite H1 in R.
  injection R as _ R. apply (f_equal trace) in R. cbn [trace] in R.
  destruct (only_extract_zips env quiet (fun _ => eq_refl) (fun _ => eq_refl)
              (fun _ => eq_refl) w1) as (q & E2 & Q2).
  rewrite H2 in E2. cbn [snd] in E2.
  destruct (all_found env (data_dir (fs w2))) eqn:Hall.
  - rewrite verify_complete in H by exact Hall. injection H as <-.
    exists q. cbn [fs trace]. rewrite E2, R, <- !List.app_assoc. auto.
  - rewrite verify_incomplete in H by exact Hall. discriminate.
Qed.

Lemma retry_loop_success attempts w w' :
  retry_loop env attempts w = (Ret true, w') ->
  exists t, trace w' = trace w ++ t ++ [success_line]
            /\ 1 <= downloads t
            /\ all_found env (data_dir (fs w')) = true.
Proof.
  revert w. induction attempts as [|attempt rest IH]; intros w; cbn [retry_loop].
  - discriminate.
  - destruct (attempt_body_events env attempt w) as (q0 & E0 & Q0).
    destruct (attempt_body env attempt w) as [[b|e] w1] eqn:E; cbn [snd] in E0.
    + intros [= -> ->]. apply attempt_body_success in E as (q & Et & Q & Hall).
      exists (request_events env attempt ++ q). split; [|split; [|exact Hall]].
      * rewrite Et, <- !List.app_assoc. reflexivity.
      * rewrite downloads_request. lia.
    + unfold on_exception. destruct (rate_limited e); [|discriminate].
      destruct (attempt <? max_retries - 1)%nat; [|discriminate].
      unfold bind at 1. unfold print, emit. intros H.
      apply IH in H as (t & Et & Dt & Hall). cbn [trace] in Et.
      exists (request_events env attempt ++ (q0 ++ [Print (Text "Rate limited. Retrying...")]) ++ t).
      split; [|split; [|exact Hall]].
      * rewrite Et, E0, <- !List.app_assoc. reflexivity.
      * rewrite downloads_request. lia.
Qed.

End Outcomes.

(** X3.  [download_from_kaggle] returns [True] only after at least one
    download request, with every manifest entry in the data directory it
    leaves, and the success line is the last thing it does. *)
Theorem success_means_all_present (env : Env) (w w' : World) :
  download_from_kaggle env w = (Ret true, w') ->
  all_found env (data_dir (fs w')) = true /\
  1 <= downloads (events (download_from_kaggle env) w) /\
  last (events (download_from_kaggle env) w) = Some success_line.
Proof.
  intros H.
  destruct (KAGGLE_AVAILABLE env) eqn:Ha.
  2:{ rewrite download_from_kaggle_unavailable in H by exact Ha. discriminate. }
  destruct (kaggle_json (fs w)) eqn:Hc.
  2:{ destruct (credential_probe_error env) as [e|] eqn:Hp.
      - rewrite (download_from_kaggle_probe_raises env w e) in H by assumption.
        discriminate.
      - rewrite download_from_kaggle_no_credential in H by assumption. discriminate. }
  pose proof H as H'. rewrite download_from_kaggle_session in H' by assumption.
  unfold try_except in H'.
  destruct (kaggle_session env w) as [[b|e] w1] eqn:E; [|discriminate].
  injection H' as -> ->. unfold kaggle_session in E.
  apply bind_inv_Ret in E as ([] & w0 & E0 & E).
  destruct (only_quiet_authenticate_session env w) as (t0 & T0 & Q0).
  rewrite E0 in T0. cbn [snd] in T0.
  apply retry_loop_success in E as (t & Et & Dt & Hall).
  erewrite events_of_extension.
  2:{ rewrite H. cbn [snd]. rewrite Et, T0, <- List.app_assoc. reflexivity. }
  split; [exact Hall|]. split.
  - rewrite !downloads_app. lia.
  - rewrite List.app_assoc. apply last_snoc.
Qed.

Lemma success_means_all_present_witness :
  let env := Scenario.env_with true Scenario.full_download in
  let w := Scenario.world_of true ∅ in
  all_found env (data_dir (fs (snd (download_from_kaggle env w)))) = true /\
  1 <= downloads (events (download_from_kaggle env) w) /\
  last (events (download_from_kaggle env) w) = Some success_line.
Proof.
  intros env w.
  apply (success_means_all_present env w (snd (download_from_kaggle env w))).
  reflexivity.
Defined.

(** X4.  No download is requested unless the client library is there, the
    credential file exists, and both [KaggleApi()] and [authenticate()]
    went through. *)
Theorem no_download_without_authentication (env : Env) (w : World) :
  1 <= downloads (events (download_from_kaggle env) w) ->
  KAGGLE_AVAILABLE env = true /\
  kaggle_json (fs w) = true /\
  exists w0, authenticate_session env w = (Ret tt, w0).
Proof.
  intros H.
  destruct (KAGGLE_AVAILABLE env) eqn:Ha.
  2:{ erewrite events_of_extension in H
        by (rewrite download_from_kaggle_unavailable by exact Ha; reflexivity).
      cbn in H. lia. }
  destruct (kaggle_json (fs w)) eqn:Hc.
  2:{ destruct (download_from_kaggle_early env w (or_intror Hc)) as (t & E & L).
      erewrite events_of_extension in H by (rewrite E; reflexivity).
      apply local_network_calls in L. unfold downloads in H.
      assert (D : List.filter is_download t = []).
      { clear -L. unfold network_calls in L. induction t as [|ev t IH]; [reflexivity|].
        cbn [List.filter] in *. destruct ev; cbn in *; try discriminate L; auto. }
      rewrite D in H. cbn in H. lia. }
  split; [reflexivity|]. split; [reflexivity|].
  destruct (authenticate_session env w) as [[[]|e] w0] eqn:E0; [eauto|].
  exfalso.
  destruct (only_quiet_authenticate_session env w) as (t0 & T0 & Q0).
  rewrite E0 in T0. cbn [snd] in T0.
  erewrite events_of_extension in H.
  2:{ rewrite download_from_kaggle_session by assumption.
      unfold try_except, kaggle_session. rewrite (bind_Raise _ _ _ _ _ E0).
      unfold bind, print, emit, ret. cbn [fs trace snd]. rewrite T0, <- List.app_assoc.
      reflexivity. }
  rewrite downloads_app, (quiet_downloads _ Q0) in H. cbn in H. lia.
Qed.

Lemma no_download_without_authentication_witness :
  let env := Scenario.env_with true Scenario.full_download in
  let w := Scenario.world_of true ∅ in
  KAGGLE_AVAILABLE env = true /\
  kaggle_json (fs w) = true /\
  exists w0, authenticate_session env w = (Ret tt, w0).
Proof.
  intros env w. apply (no_download_without_authentication env w).
  vm_compute. lia.
Defined.

(** X5.  An exception that leaves the retry loop, over whatever attempts,
    never carries the rate-limit signature: a rate-limit error is either
    retried or, on the last attempt, turned into [False] inside the
    loop. *)
Theorem rate_limit_errors_stay_in_loop (env : Env) (attempts : list nat)
    (w w1 : World) (e : exn) :
  retry_loop env attempts w = (Raise e, w1) ->
  rate_limited e = false.
Proof.
  revert w. induction attempts as [|attempt rest IH]; intros w; cbn [retry_loop].
  - discriminate.
  - destruct (attempt_body env attempt w) as [[b|e'] w'].
    + discriminate.
    + unfold on_exception. destruct (rate_limited e') eqn:Hrl.
      * destruct (attempt <? max_retries - 1)%nat.
        -- unfold bind at 1. unfold print, emit. apply IH.
        -- discriminate.
      * intros [= -> _]. exact Hrl.
Qed.

Lemma rate_limit_errors_stay_in_loop_witness :
  rate_limited Scenario.connection_error = false.
Proof.
  apply (rate_limit_errors_stay_in_loop
           (Scenario.env_with true (Scenario.fail_with Scenario.connection_error))
           (seq 0 max_retries)
           (Scenario.world_of true ∅)
           (mkWorld (fs (Scenario.world_of true ∅)) [Download competition "/repo/data"])).
  reflexivity.
Defined.

(** *** Recovering from rate limits *)

Section Recovery.

Variable env : Env.

Lemma sleeps_before_later a n :
  concat (map sleeps_before (seq (S a) n)) = map wait_time (seq (S a) n).
Proof.
  revert a. induction n as [|n IH]; intros a; [reflexivity|].
  cbn [seq map concat]. rewrite IH. reflexivity.
Qed.

Lemma extract_zips_no_archive w :
  List.filter zip_name (scandir env (data_dir (fs w))) = [] ->
  extract_zips env w = (Ret tt, w).
Proof.
  intros H. unfold extract_zips, bind, glob_zip.
  change (fun n : string => endswith n ".zip") with zip_name. rewrite H. reflexivity.
Qed.

(** The loop from [attempt] on, when the source gives in after [k] more
    rate-limit errors. *)
Lemma retry_loop_recovers k :
  forall attempt w,
    attempt + k < max_retries ->
    downloads (trace w) = attempt ->
    (forall w', downloads (trace w') <= attempt + k ->
       exists e, fst (api_download env w') = Some e /\ rate_limited e = true) ->
    (forall w', downloads (trace w') = S (attempt + k) ->
       fst (api_download env w') = None /\
       all_found env (data_dir (snd (api_download env w'))) = true /\
       List.filter zip_name (scandir env (data_dir (snd (api_download env w')))) = []) ->
    exists w' t,
      retry_loop env (seq attempt (max_retries - attempt)) w = (Ret true, w') /\
      trace w' = trace w ++ t /\
      downloads t = S k /\
      sleeps t = concat (map sleeps_before (seq attempt (S k))).
Proof.
  induction k as [|k IH]; intros attempt w Hlt Hd Hrl Hok.
  - assert (Hseq : seq attempt (max_retries - attempt)
                   = attempt :: seq (S attempt) (max_retries - S attempt)).
    { unfold max_retries in *. destruct (5 - attempt) eqn:E; [lia|].
      cbn [seq]. do 2 f_equal. lia. }
    rewrite Hseq. cbn [retry_loop]. unfold attempt_body.
    assert (Hat : downloads (trace (at_request env attempt w)) = S (attempt + 0)).
    { unfold at_request. cbn [trace]. rewrite downloads_app, Hd.
      rewrite <- (List.app_nil_r (request_events env attempt)), downloads_request.
      cbn. lia. }
    destruct (Hok _ Hat) as (Hnone & Hall & Hzip).
    unfold bind at 1. rewrite request_eq, Hnone.
    unfold bind at 1. rewrite extract_zips_no_archive by exact Hzip.
    rewrite verify_complete by exact Hall. cbn [fs trace].
    eexists _, (request_events env attempt ++ [success_line]). split; [reflexivity|].
    cbn [trace]. split; [rewrite <- List.app_assoc; reflexivity|]. split.
    + rewrite downloads_request. reflexivity.
    + rewrite sleeps_app, sleeps_request. cbn. rewrite !List.app_nil_r. reflexivity.
  - assert (Hseq : seq attempt (max_retries - attempt)
                   = attempt :: seq (S attempt) (max_retries - S attempt)).
    { unfold max_retries in *. destruct (5 - attempt) eqn:E; [lia|].
      cbn [seq]. do 2 f_equal. lia. }
    rewrite Hseq. cbn [retry_loop].
    assert (Hat : downloads (trace (at_request env attempt w)) = S attempt).
    { unfold at_request. cbn [trace]. rewrite downloads_app, Hd.
      rewrite <- (List.app_nil_r (request_events env attempt)), downloads_request.
      cbn. lia. }
    destruct (Hrl (at_request env attempt w)) as (e & He & Hrle); [lia|].
    rewrite (attempt_body_rate_limited _ _ _ _ He). unfold on_exception. rewrite Hrle.
    assert (Hlast : (attempt <? max_retries - 1)%nat = true)
      by (apply Nat.ltb_lt; unfold max_retries in *; lia).
    rewrite Hlast. unfold bind at 1. unfold print, emit. cbn [fs trace].
    edestruct (IH (S attempt)) as (w' & t & E & Et & Dt & St);
      [| |intros w'' Hw''; apply Hrl|intros w'' Hw''; apply Hok|].
    5:{ exists w', (request_events env attempt
                    ++ Print (Text "Rate limited. Retrying...") :: t).
        split; [exact E|]. split; [|split].
        - rewrite Et. cbn [trace]. rewrite <- !List.app_assoc. reflexivity.
        - rewrite downloads_request.
          change (Print (Text "Rate limited. Retrying...") :: t)
            with ([Print (Text "Rate limited. Retrying...")] ++ t).
          rewrite downloads_app, Dt. reflexivity.
        - rewrite sleeps_app, sleeps_request.
          change (Print (Text "Rate limited. Retrying...") :: t)
            with ([Print (Text "Rate limited. Retrying...")] ++ t).
          rewrite sleeps_app, St. reflexivity. }
    + lia.
    + cbn [trace]. rewrite !downloads_app, Hd.
      rewrite <- (List.app_nil_r (request_events env attempt)), downloads_request.
      cbn. lia.
    + lia.
    + lia.
Qed.

End Recovery.

(** X6.  If the source answers the first k download requests (k <= 4)
    with a rate-limit error and request k+1 delivers every manifest file,
    unpacked, then [download_from_kaggle] returns [True] after exactly k+1
    requests, having slept 2, 4, ... seconds, once before each retry. *)
Theorem recovers_after_rate_limits (env : Env) (w : World) (k : nat) :
  k < max_retries ->
  downloads (trace w) = 0 ->
  KAGGLE_AVAILABLE env = true ->
  kaggle_json (fs w) = true ->
  (forall w', fst (api_new env w') = None) ->
  (forall w', fst (api_authenticate env w') = None) ->
  (forall w', downloads (trace w') <= k ->
     exists e, fst (api_download env w') = Some e /\ rate_limited e = true) ->
  (forall w', downloads (trace w') = S k ->
     fst (api_download env w') = None /\
     all_found env (data_dir (snd (api_download env w'))) = true /\
     List.filter zip_name (scandir env (data_dir (snd (api_download env w')))) = []) ->
  fst (download_from_kaggle env w) = Ret true /\
  downloads (events (download_from_kaggle env) w) = S k /\
  sleeps (events (download_from_kaggle env) w) = map wait_time (seq 1 k).
Proof.
  intros Hk Hd Ha Hc Hnew Hauth Hrl Hok.
  destruct (authenticate_session_ok env w (Hnew _) Hauth) as (f0 & E0).
  destruct (retry_loop_recovers env k 0 (mkWorld f0 (trace w ++ authenticated_events)))
    as (w' & t & E & Et & Dt & St); try assumption.
  { cbn [trace]. rewrite downloads_app, Hd. reflexivity. }
  assert (Efun : download_from_kaggle env w = (Ret true, w')).
  { rewrite download_from_kaggle_session by assumption.
    unfold try_except, kaggle_session. rewrite (bind_Ret _ _ _ _ _ E0).
    rewrite Nat.sub_0_r in E. rewrite E. reflexivity. }
  erewrite events_of_extension.
  2:{ rewrite Efun. cbn [snd]. rewrite Et. cbn [trace]. rewrite <- List.app_assoc.
      reflexivity. }
  rewrite Efun. split; [reflexivity|]. split.
  - rewrite downloads_app, Dt. reflexivity.
  - rewrite sleeps_app, St. cbn [seq map concat sleeps_before Nat.ltb Nat.leb].
    cbn [sleeps authenticated_events flat_map List.app].
    apply sleeps_before_later.
Qed.

Lemma recovers_after_rate_limits_witness :
  let env := Scenario.env_with true (MoreScenarios.rate_limited_then_full 2) in
  let w := Scenario.world_of true ∅ in
  fst (download_from_kaggle env w) = Ret true /\
  downloads (events (download_from_kaggle env) w) = 3 /\
  sleeps (events (download_from_kaggle env) w) = [2; 4].
Proof.
  intros env w.
  apply (recovers_after_rate_limits env w 2).
  - unfold max_retries. lia.
  - reflexivity.
  - reflexivity.
  - reflexivity.
  - intros w'. reflexivity.
  - intros w'. reflexivity.
  - intros w' H. exists Scenario.too_many_requests. split; [|reflexivity].
    cbn. unfold MoreScenarios.rate_limited_then_full.
    apply Nat.leb_le in H. rewrite H. reflexivity.
  - intros w' H. cbn. unfold MoreScenarios.rate_limited_then_full. rewrite H.
    cbn. repeat split; reflexivity.
Defined.

(** *** Archives *)

Section Archives.

Variable env : Env.

Lemma extract_loop_removes zips :
  (forall z w0 name,
     zip_name name = true ->
     data_dir (fs w0) !! name = None ->
     data_dir (snd (zip_extractall env z w0)) !! name = None) ->
  forall w w',
    for_each zips (fun zip_file =>
      print (Text ("Extracting " +:+ zip_file +:+ "...")) ;;
      call (ExtractAll zip_file) (zip_extractall env zip_file) ;;
      unlink env zip_file) w = (Ret tt, w') ->
    forall name,
      zip_name name = true ->
      data_dir (fs w) !! name = None \/ In name zips ->
      data_dir (fs w') !! name = None.
Proof.
  intros Hnew. induction zips as [|z zs IH]; intros w w' H name Hz Hin.
  - injection H as <-. destruct Hin as [Hin|[]]. exact Hin.
  - cbn [for_each] in H. apply bind_inv_Ret in H as ([] & w1 & Hbody & Hrest).
    apply (IH w1 w' Hrest name Hz).
    unfold bind, print, emit, call in Hbody. cbn [fs trace] in Hbody.
    match type of Hbody with context [zip_extractall env z ?w0] =>
      pose proof (Hnew z w0 name Hz) as Hkeep;
      destruct (zip_extractall env z w0) as [[e|] f1] end; [discriminate|].
    cbn [fs trace snd] in Hbody, Hkeep. unfold unlink in Hbody. cbn [fs trace] in Hbody.
    destruct (data_dir f1 !! z) as [n|] eqn:Ez; [|discriminate].
    destruct (is_file n); [|discriminate].
    injection Hbody as <-. cbn [fs data_dir set_data_dir].
    destruct (decide (z = name)) as [->|Hne].
    + left. apply lookup_delete_eq.
    + rewrite lookup_delete_ne by exact Hne.
      destruct Hin as [Hin|[Hin|Hin]]; [left; auto|congruence|right; exact Hin].
Qed.

Lemma attempt_body_extraction_error attempt w :
  (forall w', fst (api_download env w') = None) ->
  (forall w', List.filter zip_name (scandir env (data_dir (snd (api_download env w')))) <> []) ->
  (forall z w', exists e, fst (zip_extractall env z w') = Some e /\ rate_limited e = true) ->
  exists e w1, attempt_body env attempt w = (Raise e, w1) /\ rate_limited e = true.
Proof.
  intros Hdl Hzip Hex. unfold attempt_body. unfold bind at 1.
  rewrite request_eq, Hdl. unfold bind at 1.
  unfold extract_zips. unfold bind at 1. unfold glob_zip. cbn [fs trace].
  change (fun n : string => endswith n ".zip") with zip_name.
  specialize (Hzip (at_request env attempt w)).
  destruct (List.filter zip_name _) as [|z zs]; [congruence|].
  cbn [for_each]. unfold bind, print, emit, call. cbn [fs trace].
  match goal with |- context [zip_extractall env z ?w0] =>
    destruct (Hex z w0) as (e & He & Hrl);
    destruct (zip_extractall env z w0) as [o f1] end.
  cbn [fst] in He. subst o. eauto.
Qed.

(** When every attempt ends in an exception with the rate-limit signature,
    the loop asks once per attempt and gives up after the last. *)
Lemma retry_loop_burns n :
  (forall a w, exists e w1, attempt_body env a w = (Raise e, w1) /\ rate_limited e = true) ->
  forall attempt w,
    attempt + S n = max_retries ->
    exists w' t,
      retry_loop env (seq attempt (S n)) w = (Ret false, w') /\
      trace w' = trace w ++ t /\
      downloads t = S n /\
      last t = Some (Print (Text "Please wait a few minutes and try again, or download manually.")).
Proof.
  intros Hall. induction n as [|n IH]; intros attempt w Hsum;
    destruct (Hall attempt w) as (e & w1 & E & Hrl);
    destruct (attempt_body_events env attempt w) as (q & Et & Q);
    rewrite E in Et; cbn [snd] in Et;
    cbn [seq retry_loop]; rewrite E; unfold on_exception; rewrite Hrl.
  - assert (Hlast : (attempt <? max_retries - 1)%nat = false)
      by (apply Nat.ltb_ge; unfold max_retries in *; lia).
    rewrite Hlast. unfold bind, print, emit, ret. cbn [fs trace].
    eexists _, (request_events env attempt ++ q ++ [_; _]). split; [reflexivity|].
    cbn [trace]. split; [rewrite Et, <- !List.app_assoc; reflexivity|]. split.
    + rewrite downloads_request, downloads_app, (quiet_downloads _ Q). reflexivity.
    + rewrite !List.app_assoc.
      change [?a; ?b] with ([a] ++ [b]). rewrite List.app_assoc. apply last_snoc.
  - assert (Hlast : (attempt <? max_retries - 1)%nat = true)
      by (apply Nat.ltb_lt; unfold max_retries in *; lia).
    rewrite Hlast. unfold bind at 1. unfold print, emit. cbn [fs trace].
    edestruct (IH (S attempt)) as (w' & t & E' & Et' & Dt & Lt); [lia|].
    exists w', (request_events env attempt ++ (q ++ [Print (Text "Rate limited. Retrying...")]) ++ t).
    split; [exact E'|]. split; [|split].
    + rewrite Et'. cbn [trace]. rewrite Et, <- !List.app_assoc. reflexivity.
    + rewrite downloads_request, !downloads_app, (quiet_downloads _ Q), Dt. reflexivity.
    + rewrite !List.app_assoc. rewrite last_app, Lt. reflexivity.
Qed.

End Archives.

(** X7.  When the first download request raises nothing, every archive is
    extracted and removed, and the directory then holds every manifest
    file, [download_from_kaggle] returns [True] at once: one request, no
    sleep, no further attempt. *)
Theorem complete_download_returns_at_once (env : Env) (w w0 w1 w2 : World) :
  KAGGLE_AVAILABLE env = true ->
  kaggle_json (fs w) = true ->
  authenticate_session env w = (Ret tt, w0) ->
  request env 0 w0 = (Ret tt, w1) ->
  extract_zips env w1 = (Ret tt, w2) ->
  all_found env (data_dir (fs w2)) = true ->
  download_from_kaggle env w = (Ret true, mkWorld (fs w2) (trace w2 ++ [success_line])) /\
  downloads (events (download_from_kaggle env) w) = 1 /\
  sleeps (events (download_from_kaggle env) w) = [].
Proof.
  intros Ha Hc H0 H1 H2 Hall.
  assert (E : download_from_kaggle env w
              = (Ret true, mkWorld (fs w2) (trace w2 ++ [success_line]))).
  { rewrite download_from_kaggle_session by assumption.
    unfold try_except, kaggle_session. rewrite (bind_Ret _ _ _ _ _ H0).
    cbn [seq max_retries retry_loop]. unfold attempt_body.
    rewrite (bind_Ret _ _ _ _ _ H1), (bind_Ret _ _ _ _ _ H2).
    rewrite verify_complete by assumption. reflexivity. }
  split; [exact E|].
  destruct (only_quiet_authenticate_session env w) as (t0 & E0 & Q0).
  rewrite H0 in E0. cbn [snd] in E0.
  pose proof (request_eq env 0 w0) as R. rewrite H1 in R.
  injection R as _ R. apply (f_equal trace) in R. cbn [trace] in R.
  destruct (only_extract_zips env quiet (fun _ => eq_refl) (fun _ => eq_refl)
              (fun _ => eq_refl) w1) as (t2 & E2 & Q2).
  rewrite H2 in E2. cbn [snd] in E2.
  erewrite events_of_extension.
  2:{ rewrite E. cbn [snd trace]. rewrite E2, R, E0, <- !List.app_assoc. reflexivity. }
  rewrite !downloads_app, !sleeps_app, (quiet_downloads _ Q0), (quiet_sleeps _ Q0),
    (quiet_downloads _ Q2), (quiet_sleeps _ Q2).
  split; reflexivity.
Qed.

Lemma complete_download_returns_at_once_witness :
  let env := MoreScenarios.good_archive_env in
  let w := Scenario.world_of true ∅ in
  let t1 := authenticated_events ++ [Download competition "/repo/data"] in
  let t2 := t1 ++ [Print (Text "Extracting brain-to-text-25.zip...");
                   ExtractAll "brain-to-text-25.zip"; Unlink "brain-to-text-25.zip"] in
  download_from_kaggle env w
  = (Ret true, mkWorld (mkFS true true true Scenario.complete_dir) (t2 ++ [success_line])) /\
  downloads (events (download_from_kaggle env) w) = 1 /\
  sleeps (events (download_from_kaggle env) w) = [].
Proof.
  intros env w t1 t2.
  apply (complete_download_returns_at_once env w
           (mkWorld (fs w) authenticated_events)
           (mkWorld (mkFS true true true MoreScenarios.one_archive) t1)
           (mkWorld (mkFS true true true Scenario.complete_dir) t2));
    vm_compute; reflexivity.
Defined.

(** X8.  The rate-limit test looks at the message of whatever the attempt
    raised, not at where it came from.  If every download goes through but
    leaves an archive whose extraction fails with a message that contains
    "429" or "Too Many Requests", each attempt is retried as if rate
    limited: the function downloads max_retries = 5 times, sleeps 30
    seconds in total, and returns [False] with the rate-limit advice. *)
Theorem extraction_error_is_retried_as_rate_limit (env : Env) (w : World) :
  KAGGLE_AVAILABLE env = true ->
  kaggle_json (fs w) = true ->
  (forall w', fst (api_new env w') = None) ->
  (forall w', fst (api_authenticate env w') = None) ->
  (forall w', fst (api_download env w') = None) ->
  (forall w', List.filter zip_name (scandir env (data_dir (snd (api_download env w')))) <> []) ->
  (forall z w', exists e, fst (zip_extractall env z w') = Some e /\ rate_limited e = true) ->
  fst (download_from_kaggle env w) = Ret false /\
  downloads (events (download_from_kaggle env) w) = max_retries /\
  total_sleep (events (download_from_kaggle env) w) = 30 /\
  last (events (download_from_kaggle env) w)
  = Some (Print (Text "Please wait a few minutes and try again, or download manually.")).
Proof.
  intros Ha Hc Hnew Hauth Hdl Hzip Hex.
  destruct (authenticate_session_ok env w (Hnew _) Hauth) as (f0 & E0).
  destruct (retry_loop_burns env 4
              (fun a w' => attempt_body_extraction_error env a w' Hdl Hzip Hex)
              0 (mkWorld f0 (trace w ++ authenticated_events)) eq_refl)
    as (w' & t & E & Et & Dt & Lt).
  assert (Efun : download_from_kaggle env w = (Ret false, w')).
  { rewrite download_from_kaggle_session by assumption.
    unfold try_except, kaggle_session. rewrite (bind_Ret _ _ _ _ _ E0).
    change (seq 0 max_retries) with (seq 0 5). rewrite E. reflexivity. }
  destruct (download_from_kaggle_sleeps env w) as (t' & Et' & St').
  assert (Ev : events (download_from_kaggle env) w = authenticated_events ++ t).
  { apply events_of_extension. rewrite Efun. cbn [snd]. rewrite Et. cbn [trace].
    rewrite <- List.app_assoc. reflexivity. }
  assert (Ev' : events (download_from_kaggle env) w = t')
    by (apply events_of_extension; exact Et').
  assert (D : downloads (authenticated_events ++ t) = 5)
    by (rewrite downloads_app, Dt; reflexivity).
  rewrite Efun. split; [reflexivity|]. split; [rewrite Ev; exact D|]. split.
  - unfold total_sleep. rewrite Ev', St', <- Ev', Ev, D. reflexivity.
  - rewrite Ev, last_app, Lt. reflexivity.
Qed.

Lemma extraction_error_is_retried_as_rate_limit_witness :
  let env := MoreScenarios.corrupt_archive_env in
  let w := Scenario.world_of true ∅ in
  rate_limited MoreScenarios.bad_crc = true /\
  fst (download_from_kaggle env w) = Ret false /\
  downloads (events (download_from_kaggle env) w) = max_retries /\
  total_sleep (events (download_from_kaggle env) w) = 30 /\
  last (events (download_from_kaggle env) w)
  = Some (Print (Text "Please wait a few minutes and try again, or download manually.")).
Proof.
  intros env w. split; [reflexivity|].
  apply (extraction_error_is_retried_as_rate_limit env w).
  - reflexivity.
  - reflexivity.
  - intros w'. reflexivity.
  - intros w'. reflexivity.
  - intros w'. reflexivity.
  - intros w'. vm_compute. discriminate.
  - intros z w'. exists MoreScenarios.bad_crc. split; reflexivity.
Defined.

(** X9.  Archives are transient.  If the extraction step ends without an
    exception, and extracting never creates an archive of its own, then no
    [*.zip] entry is left in the data directory; and with no archive in the
    directory the step changes nothing at all. *)
Theorem no_archive_left (env : Env) (w w' : World) :
  (forall d, scandir env d ≡ₚ (map_to_list d).*1) ->
  (forall z w0 name,
     zip_name name = true ->
     data_dir (fs w0) !! name = None ->
     data_dir (snd (zip_extractall env z w0)) !! name = None) ->
  extract_zips env w = (Ret tt, w') ->
  (forall name, zip_name name = true -> data_dir (fs w') !! name = None) /\
  (List.filter zip_name (scandir env (data_dir (fs w))) = [] -> w' = w).
Proof.
  intros Hscan Hnew H. split.
  - intros name Hz. unfold extract_zips in H. unfold bind at 1 in H.
    unfold glob_zip in H. cbn [fs trace] in H.
    change (fun n : string => endswith n ".zip") with zip_name in H.
    apply (extract_loop_removes env _ Hnew w w' H name Hz).
    destruct (data_dir (fs w) !! name) as [n|] eqn:E; [right|left; reflexivity].
    apply List.filter_In. split; [|exact Hz].
    apply list_elem_of_In. rewrite Hscan. apply list_elem_of_fmap.
    exists (name, n). split; [reflexivity|]. apply elem_of_map_to_list. exact E.
  - intros Hnone. rewrite (extract_zips_no_archive env w Hnone) in H.
    injection H as <-. reflexivity.
Qed.

Lemma no_archive_left_witness :
  let env := MoreScenarios.good_archive_env in
  let w := mkWorld (mkFS true true true MoreScenarios.one_archive) [] in
  let w' := snd (extract_zips env w) in
  data_dir (fs w') !! "brain-to-text-25.zip" = None /\
  data_dir (fs w') = Scenario.complete_dir.
Proof.
  intros env w w'. split; [|reflexivity].
  apply (no_archive_left env w w').
  - intros d. reflexivity.
  - intros z w0 name Hz Hnone. cbn. apply lookup_union_None. split; [|exact Hnone].
    unfold Scenario.complete_dir.
    repeat (apply lookup_insert_None; split; [|intros <-; discriminate Hz]).
    apply lookup_empty.
  - reflexivity.
  - reflexivity.
Defined.

(** *** The verifier, once more *)

Lemma filter_partition {A} (P : A -> bool) (l : list A) :
  List.filter P l ++ List.filter (fun x => negb (P x)) l ≡ₚ l.
Proof.
  induction l as [|x l IH]; [reflexivity|].
  cbn [List.filter]. destruct (P x); cbn [negb List.app].
  - constructor. exact IH.
  - rewrite <- Permutation_middle. constructor. exact IH.
Qed.

Lemma filter_nil_forall {A} (P : A -> bool) (l : list A) :
  List.filter P l = [] <-> forall x, In x l -> P x = false.
Proof.
  induction l as [|x l IH]; cbn [List.filter].
  - split; [intros _ y []|reflexivity].
  - destruct (P x) eqn:E.
    + split; [discriminate|]. intros H. rewrite (H x) in E by (left; reflexivity).
      discriminate.
    + rewrite IH. split.
      * intros H y [<-|Hy]; auto.
      * intros H y Hy. apply H. right. exact Hy.
Qed.

Lemma StronglySorted_list_filter {A} (R : relation A) (P : A -> bool) (l : list A) :
  StronglySorted R l -> StronglySorted R (List.filter P l).
Proof.
  induction 1 as [|x l Hs IH Hx]; cbn [List.filter]; [constructor|].
  destruct (P x); [|exact IH]. constructor; [exact IH|].
  apply List.Forall_forall. intros y Hy. apply List.filter_In in Hy as [Hy _].
  rewrite List.Forall_forall in Hx. auto.
Qed.

Lemma reported_names_file_report (d : gmap string node) names :
  reported_names (file_report d names)
  = List.filter (fun f => match d !! f with Some n => is_file n | None => false end) names.
Proof.
  induction names as [|f names IH]; [reflexivity|].
  cbn [file_report flat_map List.filter]. fold (file_report d names).
  unfold reported_names in *. rewrite flat_map_app, IH.
  destruct (d !! f) as [n|]; [destruct (is_file n)|]; reflexivity.
Qed.

Lemma is_print_size_lines prefix (d : gmap string node) names :
  forallb is_print (size_lines prefix d names) = true.
Proof.
  induction names as [|f names IH]; [reflexivity|].
  cbn [size_lines flat_map]. destruct (d !! f); [cbn; exact IH|exact IH].
Qed.

Lemma check_events_eq env w :
  check_existing_files env w
  = (Ret (all_found env (data_dir (fs w))),
     mkWorld (fs w) (trace w ++ check_events env (data_dir (fs w)))).
Proof. apply check_existing_files_eq. Qed.

(** X10.  [check_existing_files] only reads and prints: it leaves the
    filesystem as it is, everything it does is a [print], and it calls
    [stat] on existing entries only.  When no manifest entry exists (an
    empty data directory, say) it prints nothing and returns [False]; with
    an empty manifest it returns [True]. *)
Theorem check_existing_files_read_only (env : Env) (w : World) :
  fs (snd (check_existing_files env w)) = fs w /\
  forallb is_print (events (check_existing_files env) w) = true /\
  (REQUIRED_FILES env <> [] ->
   (forall f, In f (REQUIRED_FILES env) -> data_dir (fs w) !! f = None) ->
   check_existing_files env w = (Ret false, w)) /\
  (REQUIRED_FILES env = [] -> fst (check_existing_files env w) = Ret true).
Proof.
  pose proof (check_events_eq env w) as E.
  erewrite events_of_extension by (rewrite E; reflexivity).
  rewrite E. cbn [fst snd fs]. split; [reflexivity|]. split; [|split].
  - unfold check_events. destruct (all_found env (data_dir (fs w))).
    + cbn [forallb is_print andb]. apply is_print_size_lines.
    + destruct (existing env (data_dir (fs w))) as [|f0 l]; [reflexivity|].
      cbn [forallb is_print andb]. rewrite forallb_app, is_print_size_lines. reflexivity.
  - intros Hne Hnone.
    assert (Hex : existing env (data_dir (fs w)) = []).
    { unfold existing. apply filter_nil_forall. intros f Hf. unfold exists_in.
      rewrite (Hnone f Hf). reflexivity. }
    assert (Hall : all_found env (data_dir (fs w)) = false).
    { unfold all_found. destruct (REQUIRED_FILES env) as [|f l] eqn:Ef; [congruence|].
      cbn [forallb]. unfold exists_in at 1.
      rewrite (Hnone f) by (try rewrite Ef; left; reflexivity). reflexivity. }
    unfold check_events. rewrite Hall, Hex, List.app_nil_r. destruct w; reflexivity.
  - intros Hnil. unfold all_found. rewrite Hnil. reflexivity.
Qed.

Lemma check_existing_files_read_only_witness :
  let env := Scenario.env_with true Scenario.succeed in
  let w := Scenario.world_of true ∅ in
  check_existing_files env w = (Ret false, w).
Proof.
  intros env w.
  apply (proj1 (proj2 (proj2 (check_existing_files_read_only env w)))).
  - discriminate.
  - intros f Hf. apply lookup_empty.
Defined.

(** X11.  [existing] and [missing] split the manifest: together they are
    the manifest up to order, an entry of the manifest is in [existing]
    when it exists and in [missing] when it does not, never in both, and
    [missing] is empty exactly when every entry exists. *)
Theorem existing_missing_partition (env : Env) (d : gmap string node) :
  existing env d ++ missing env d ≡ₚ REQUIRED_FILES env /\
  (forall f, In f (existing env d) <-> In f (REQUIRED_FILES env) /\ is_Some (d !! f)) /\
  (forall f, In f (missing env d) <-> In f (REQUIRED_FILES env) /\ d !! f = None) /\
  (missing env d = [] <-> all_found env d = true).
Proof.
  rewrite missing_eq. split; [apply filter_partition|]. split; [|split].
  - intros f. unfold existing. rewrite List.filter_In, exists_in_is_Some. reflexivity.
  - intros f. rewrite List.filter_In. unfold exists_in.
    destruct (d !! f); cbn; split; intros [? ?]; split; auto; discriminate.
  - unfold all_found. rewrite filter_nil_forall, forallb_forall.
    split; intros H f Hf; specialize (H f Hf); destruct (exists_in d f);
      cbn in *; congruence.
Qed.

(** X12.  The listing printed after an incomplete download names the
    regular files of the data directory, and only those, each once, in
    ascending order of their names. *)
Theorem listing_is_sorted (env : Env) (w : World) :
  (forall d, scandir env d ≡ₚ (map_to_list d).*1) ->
  let names := reported_names (events (list_data_dir env) w) in
  StronglySorted String.le names /\
  NoDup names /\
  (forall f, In f names <->
     exists n, data_dir (fs w) !! f = Some n /\ is_file n = true).
Proof.
  intros Hscan names. subst names.
  erewrite events_of_extension by (rewrite list_data_dir_eq; reflexivity).
  change (reported_names (?a :: ?l)) with (reported_names l).
  rewrite reported_names_file_report.
  assert (Hperm : sorted (scandir env (data_dir (fs w))) ≡ₚ (map_to_list (data_dir (fs w))).*1).
  { unfold sorted. rewrite merge_sort_Permutation. apply Hscan. }
  split; [|split].
  - apply StronglySorted_list_filter. unfold sorted.
    apply StronglySorted_merge_sort; apply _.
  - apply NoDup_ListNoDup, List.NoDup_filter.
    eapply Permutation_NoDup; [symmetry; exact Hperm|].
    apply NoDup_ListNoDup, NoDup_fst_map_to_list.
  - intros f. rewrite List.filter_In. split.
    + intros [_ H]. destruct (data_dir (fs w) !! f) as [n|]; [eauto|discriminate].
    + intros (n & E & F). rewrite E. split; [|exact F].
      apply list_elem_of_In. rewrite Hperm. apply list_elem_of_fmap.
      exists (f, n). split; [reflexivity|]. apply elem_of_map_to_list. exact E.
Qed.

Lemma listing_is_sorted_witness :
  let env := Scenario.env_with true Scenario.succeed in
  let w := Scenario.world_of true Scenario.train_is_a_directory in
  reported_names (events (list_data_dir env) w) = ["data_test.hdf5"; "data_val.hdf5"] /\
  StronglySorted String.le (reported_names (events (list_data_dir env) w)).
Proof.
  intros env w.
  pose proof (listing_is_sorted env w (fun d => reflexivity _)) as [Hsorted _].
  split; [vm_compute; reflexivity|exact Hsorted].
Defined.

(** *** main *)

Lemma is_print_check_events env d : forallb is_print (check_events env d) = true.
Proof.
  unfold check_events. destruct (all_found env d).
  - cbn [forallb is_print andb]. apply is_print_size_lines.
  - destruct (existing env d) as [|f0 l]; [reflexivity|].
    cbn [forallb is_print andb]. rewrite forallb_app, is_print_size_lines. reflexivity.
Qed.

Lemma prints_are_local t : forallb is_print t = true -> forallb local_event t = true.
Proof.
  induction t as [|ev t IH]; [reflexivity|]. cbn [forallb].
  intros [H1 H2]%andb_prop. rewrite (IH H2). destruct ev; try discriminate. reflexivity.
Qed.

Lemma download_from_dryad_eq env w :
  download_from_dryad env w = (Ret false, mkWorld (fs w) (trace w ++ dryad_events env)).
Proof.
  unfold download_from_dryad, dryad_events. destruct (REQUESTS_AVAILABLE env); cbn [negb].
  - unfold bind, print, emit, ret. cbn [fs trace]. rewrite <- !List.app_assoc. reflexivity.
  - reflexivity.
Qed.

(** [main] when the first check fails: everything hangs on Kaggle. *)
Lemma main_incomplete env w :
  all_found env (data_dir (fs w)) = false ->
  main env w
  = match download_from_kaggle env
            (mkWorld (fs w) (trace w ++ main_preamble env (data_dir (fs w)))) with
    | (Ret true, w') => (Ret 0%Z, w')
    | (Ret false, w') =>
        (Ret 1%Z,
         mkWorld (fs w')
           (trace w' ++ Print (Text (LF +:+ "[Method 2] Trying Dryad..."))
                        :: dryad_events env ++ manual_instructions env))
    | (Raise e, w') => (Raise e, w')
    end.
Proof.
  intros Hall. unfold main. unfold bind at 1 2 3. unfold print, emit. cbn [fs trace].
  unfold bind at 1. rewrite check_events_eq. cbn [fs trace]. rewrite Hall.
  unfold bind at 1 2 3. cbn [fs trace]. unfold bind at 1.
  match goal with |- context [download_from_kaggle env ?w0] =>
    replace w0 with (mkWorld (fs w) (trace w ++ main_preamble env (data_dir (fs w))))
      by (unfold main_preamble; rewrite <- !List.app_assoc; reflexivity) end.
  destruct (download_from_kaggle env _) as [[[]|e] w']; try reflexivity.
  unfold bind at 1. cbn [fs trace]. unfold bind at 1. rewrite download_from_dryad_eq.
  unfold bind, ret. cbn [fs trace]. f_equal. f_equal.
  unfold manual_instructions. rewrite <- !List.app_assoc. reflexivity.
Qed.

(** X13.  [main] has two ways to return.  It returns 0 with every manifest
    entry in the data directory it leaves; or it returns 1, which only
    happens when some entry was missing at the start, and then the manual
    download instructions are the last thing it prints. *)
Theorem main_outcome (env : Env) (w w' : World) (code : Z) :
  main env w = (Ret code, w') ->
  (code = 0%Z /\ all_found env (data_dir (fs w')) = true) \/
  (code = 1%Z /\
   all_found env (data_dir (fs w)) = false /\
   exists t, events (main env) w = t ++ manual_instructions env).
Proof.
  intros Hmain. destruct (all_found env (data_dir (fs w))) eqn:Hall.
  - left. destruct (main_skips_fetch env w Hall) as (t & E & _).
    rewrite E in Hmain. injection Hmain as <- <-. cbn [fs]. auto.
  - pose proof (main_incomplete env w Hall) as E.
    set (wk := mkWorld (fs w) (trace w ++ main_preamble env (data_dir (fs w)))) in E.
    destruct (download_from_kaggle_sleeps env wk) as (tk & Etk & _).
    destruct (download_from_kaggle env wk) as [[[]|e] wk'] eqn:K; cbn [snd] in Etk;
      rewrite E in Hmain.
    + left. injection Hmain as <- <-. split; [reflexivity|].
      eapply download_from_kaggle_true. exact K.
    + right. injection Hmain as <- <-. split; [reflexivity|]. split; [reflexivity|].
      exists (main_preamble env (data_dir (fs w)) ++ tk
              ++ [Print (Text (LF +:+ "[Method 2] Trying Dryad..."))] ++ dryad_events env).
      apply events_of_extension. rewrite E. cbn [snd trace].
      rewrite Etk. subst wk. cbn [trace].
      rewrite <- !List.app_assoc. reflexivity.
    + discriminate.
Qed.

Lemma main_outcome_witness :
  let env := Scenario.env_with false Scenario.full_download in
  let w := Scenario.world_of true Scenario.two_of_three in
  (1%Z = 0%Z /\ all_found env (data_dir (fs (snd (main env w)))) = true) \/
  (1%Z = 1%Z /\
   all_found env (data_dir (fs w)) = false /\
   exists t, events (main env) w = t ++ manual_instructions env).
Proof.
  intros env w.
  exact (main_outcome env w (snd (main env w)) 1 ltac:(vm_compute; reflexivity)).
Defined.

(** X14.  Without the client library or without the credential file,
    [main] on an incomplete data directory makes no network call and
    leaves the filesystem as it is.  It returns 1, except when the library
    is there and the probe of the credential file itself raises: that
    exception leaves [main]. *)
Theorem main_offline (env : Env) (w : World) :
  KAGGLE_AVAILABLE env = false \/ kaggle_json (fs w) = false ->
  all_found env (data_dir (fs w)) = false ->
  network_calls (events (main env) w) = [] /\
  fs (snd (main env w)) = fs w /\
  (KAGGLE_AVAILABLE env = false \/ credential_probe_error env = None ->
   fst (main env w) = Ret 1%Z) /\
  (forall e,
     KAGGLE_AVAILABLE env = true ->
     credential_probe_error env = Some e ->
     fst (main env w) = Raise e).
Proof.
  intros Hoff Hall. pose proof (main_incomplete env w Hall) as E.
  set (wk := mkWorld (fs w) (trace w ++ main_preamble env (data_dir (fs w)))) in E.
  destruct (download_from_kaggle_early env wk Hoff) as (tk & K & Ltk).
  assert (Lpre : forallb local_event (main_preamble env (data_dir (fs w))) = true).
  { apply prints_are_local. unfold main_preamble.
    rewrite !forallb_app, is_print_check_events. reflexivity. }
  assert (Lrest : forallb local_event
                    (Print (Text (LF +:+ "[Method 2] Trying Dryad..."))
                     :: dryad_events env ++ manual_instructions env) = true).
  { apply prints_are_local. cbn [forallb is_print andb]. rewrite forallb_app.
    unfold dryad_events. destruct (REQUESTS_AVAILABLE env); reflexivity. }
  destruct (download_from_kaggle env wk) as [r wk'] eqn:D. cbn [snd] in K. subst wk'.
  assert (Hr : (r = Ret false /\
                (KAGGLE_AVAILABLE env = false \/ credential_probe_error env = None)) \/
               (exists e, r = Raise e /\ KAGGLE_AVAILABLE env = true
                          /\ credential_probe_error env = Some e)).
  { destruct (KAGGLE_AVAILABLE env) eqn:Ha.
    - destruct Hoff as [Hoff|Hc]; [discriminate|].
      destruct (credential_probe_error env) as [e|] eqn:Hp.
      + right. exists e. rewrite (download_from_kaggle_probe_raises env wk e) in D
          by assumption. injection D as <- _. auto.
      + left. rewrite download_from_kaggle_no_credential in D by assumption.
        injection D as <- _. auto.
    - left. rewrite download_from_kaggle_unavailable in D by exact Ha.
      injection D as <- _. auto. }
  destruct Hr as [[-> Hcond]|(e & -> & Ha & Hp)].
  - erewrite events_of_extension.
    2:{ rewrite E. cbn [snd trace fs]. subst wk. cbn [trace].
        rewrite <- !List.app_assoc. reflexivity. }
    rewrite E. cbn [fst snd fs]. split; [|split; [reflexivity|split]].
    + apply local_network_calls. rewrite !forallb_app, Lpre, Ltk. exact Lrest.
    + reflexivity.
    + intros e' Ha' Hp'. destruct Hcond as [Hc|Hc]; congruence.
  - erewrite events_of_extension.
    2:{ rewrite E. cbn [snd trace fs]. subst wk. cbn [trace].
        rewrite <- !List.app_assoc. reflexivity. }
    rewrite E. cbn [fst snd fs]. split; [|split; [reflexivity|split]].
    + apply local_network_calls. rewrite !forallb_app, Lpre, Ltk. reflexivity.
    + intros [Hc|Hc]; congruence.
    + intros e' _ Hp'. congruence.
Qed.

Lemma main_offline_witness :
  let env := Scenario.env_with false Scenario.full_download in
  let w := Scenario.world_of true Scenario.two_of_three in
  network_calls (events (main env) w) = [] /\
  fs (snd (main env w)) = fs w /\
  fst (main env w) = Ret 1%Z.
Proof.
  intros env w.
  destruct (main_offline env w (or_introl eq_refl) eq_refl) as (Hnet & Hfs & Hret & _).
  split; [exact Hnet|]. split; [exact Hfs|]. apply Hret. left. reflexivity.
Defined.

End FetchProperties.

(** ** Further properties of run_complete_pipeline.py *)

Module RunnerProperties.
Import CompletePipeline PipelineFacts.

(** The file names built by the runner are the manifest of
    [download_data.py]. *)
Lemma all_exist_all_found (denv : DownloadData.Env) (d : gmap string node) :
  DownloadData.REQUIRED_FILES denv = DownloadData.repository_manifest ->
  all_exist d = DownloadData.all_found denv d.
Proof. intros H. unfold DownloadData.all_found. rewrite H. reflexivity. Qed.

Lemma script_zero (denv : DownloadData.Env) (w : World) :
  fst (DownloadData.script denv w) = 0%Z ->
  DownloadData.all_found denv (data_dir (fs (snd (DownloadData.script denv w)))) = true.
Proof.
  unfold DownloadData.script.
  destruct (DownloadData.main denv w) as [[code|e] w'] eqn:E; cbn [fst snd].
  - intros ->. eapply DownloadFacts.main_zero_all_found. exact E.
  - discriminate.
Qed.

(** Step 0 in one piece: the filesystem it leaves, and when it lets the
    run go on. *)
Lemma step0_gate env w :
  let r := download_data env (download_start w) in
  fs (snd (step0 env w)) = (if download_script (fs w) then snd r else fs w) /\
  (fst (step0 env w) = None <->
   if download_script (fs w)
   then fst r = 0%Z \/ all_exist (data_dir (snd r)) = true
   else all_exist (data_dir (fs w)) = true).
Proof.
  cbv zeta. unfold step0, say, subprocess_run. cbn [fs trace fst snd].
  rewrite <- !List.app_assoc. cbn [List.app]. fold (download_start w).
  destruct (download_script (fs w)).
  - destruct (download_data env (download_start w)) as [code f1]. cbn [fst snd].
    destruct (Z.eqb_spec code 0) as [->|Hne]; cbn [negb fst snd fs].
    + split; [reflexivity|]. split; auto.
    + destruct (all_exist (data_dir f1)) eqn:Hall; cbn [negb fst snd fs].
      * split; [reflexivity|]. split; auto.
      * split; [reflexivity|]. split; [discriminate|]. intros [?|?]; congruence.
  - destruct (all_exist (data_dir (fs w))) eqn:Hall; cbn [negb fst snd fs].
    + split; [reflexivity|]. split; auto.
    + split; [reflexivity|]. split; discriminate.
Qed.

(** X15.  The two scripts together.  When the child process of step 0 is
    this repository's [download_data.py] with its manifest of three files,
    the runner gets past step 0 only with the three data files in the data
    directory: after a zero exit code because [main] returns 0 only then,
    after a non-zero one because the runner checks again. *)
Theorem pipeline_starts_with_data (denv : DownloadData.Env) (env : Env) (w w1 : World) :
  DownloadData.REQUIRED_FILES denv = DownloadData.repository_manifest ->
  download_data env = download_data_process denv ->
  step0 env w = (None, w1) ->
  all_exist (data_dir (fs w1)) = true /\
  (forall f, In f DownloadData.repository_manifest -> is_Some (data_dir (fs w1) !! f)).
Proof.
  intros Hman Hproc H0.
  assert (Hall : all_exist (data_dir (fs w1)) = true).
  { pose proof (step0_gate env w) as [Hfs Hgate]. cbv zeta in Hfs, Hgate.
    rewrite H0 in Hfs, Hgate. cbn [fst snd] in Hfs, Hgate.
    pose proof (proj1 Hgate eq_refl) as Hg. clear Hgate.
    rewrite Hfs. destruct (download_script (fs w)); [|exact Hg].
    destruct Hg as [Hzero|Hall]; [|exact Hall].
    rewrite Hproc in *. unfold download_data_process in *. cbn [fst snd] in *.
    rewrite (all_exist_all_found denv) by exact Hman.
    apply script_zero. exact Hzero. }
  split; [exact Hall|].
  rewrite (all_exist_all_found denv) in Hall by exact Hman.
  rewrite <- Hman. apply DownloadFacts.all_found_iff. exact Hall.
Qed.

Lemma pipeline_starts_with_data_witness :
  let denv := Scenario.env_with true Scenario.full_download in
  let env := Scenario.runner_env (download_data_process denv) (Scenario.exits_with 0) in
  let w := Scenario.runner_world true ∅ in
  fst (step0 env w) = None /\
  all_exist (data_dir (fs (snd (step0 env w)))) = true.
Proof.
  intros denv env w. split; [vm_compute; reflexivity|].
  apply (pipeline_starts_with_data denv env w (snd (step0 env w))).
  - reflexivity.
  - reflexivity.
  - vm_compute. reflexivity.
Defined.

(** X16.  The runner starts each script at most once, the download first,
    and it starts the pipeline only when step 0 did not exit and
    [run_full_pipeline.py] exists then. *)
Theorem subprocess_discipline (env : Env) (w : World) :
  exists t,
    trace (snd (run_complete_pipeline env w)) = trace w ++ t /\
    subprocesses t
    = (if download_script (fs w) then ["download_data.py"] else [])
      ++ (match fst (step0 env w) with
          | None =>
              if pipeline_script (fs (snd (step0 env w)))
              then ["run_full_pipeline.py"] else []
          | Some _ => []
          end).
Proof.
  unfold run_complete_pipeline, step1, step0, say, subprocess_run. cbn [fs trace fst snd].
  rewrite <- !List.app_assoc. cbn [List.app].
  destruct (download_script (fs w)).
  - destruct (download_data env _) as [code f1]. cbn [fst snd].
    destruct (code =? 0)%Z; cbn [negb fst snd fs trace].
    + rewrite <- !List.app_assoc. cbn [List.app].
      destruct (pipeline_script f1); cbn [fst snd fs trace];
        rewrite <- ?List.app_assoc; cbn [List.app]; eexists; split; reflexivity.
    + destruct (all_exist (data_dir f1)); cbn [negb fst snd fs trace].
      * rewrite <- !List.app_assoc. cbn [List.app].
        destruct (pipeline_script f1); cbn [fst snd fs trace];
          rewrite <- ?List.app_assoc; cbn [List.app]; eexists; split; reflexivity.
      * eexists; split; reflexivity.
  - destruct (all_exist (data_dir (fs w))); cbn [negb fst snd fs trace].
    + rewrite <- !List.app_assoc. cbn [List.app].
      destruct (pipeline_script (fs w)); cbn [fst snd fs trace];
        rewrite <- ?List.app_assoc; cbn [List.app]; eexists; split; reflexivity.
    + eexists; split; reflexivity.
Qed.

(** X17.  What [sys.exit(result.returncode)] makes of a return code: the
    exit status is always between 0 and 255, it is the return code itself
    exactly when that is between 0 and 255, and a child killed by signal s
    (return code -s) shows as 256 - s. *)
Theorem exit_status_range (n : Z) :
  (0 <= exit_status n < 256)%Z /\
  (exit_status n = n <-> (0 <= n < 256)%Z) /\
  (forall s, (1 <= s <= 255)%Z -> exit_status (- s) = (256 - s)%Z).
Proof.
  unfold exit_status. split; [apply Z.mod_pos_bound; lia|]. split.
  - split.
    + intros H. rewrite <- H. apply Z.mod_pos_bound. lia.
    + apply Z.mod_small.
  - intros s Hs. symmetry. apply (Z.mod_unique_pos _ _ (-1)); lia.
Qed.

Lemma exit_status_range_witness :
  exit_status 7 = 7%Z /\ exit_status (-9) = 247%Z.
Proof.
  split.
  - apply (proj2 (proj1 (proj2 (exit_status_range 7%Z)))). lia.
  - apply (proj2 (proj2 (exit_status_range 0)) 9%Z). lia.
Defined.

End RunnerProperties.
